(** * BraveSearch: a shallow embedding of [brave_search.py]

    The toolkit wraps one HTTP GET to the Brave Search API.  The embedding
    keeps the shape of the Python code:

    - Python values that travel through the code (request parameters, the
      decoded JSON body, the list that is serialised at the end) are terms
      of [pyval]; a [dict] is an association list because insertion order
      is what [json.dumps] prints;
    - a Python call either returns or raises: [pyresult];
    - the HTTP session and the logger are the two effects of the code; they
      are threaded through a state-and-exception monad [M] over a [world]
      that records every request sent and every log record written;
    - the upstream service is a parameter ([upstream]): it may answer each
      request differently and may depend on everything sent before. *)

From Stdlib Require Import ZArith String Ascii List Bool DecimalString.
From stdpp Require Import base option list strings gmap.

Local Open Scope Z_scope.

(** ** Python values *)

(** A float is never computed with; only its truth value and the text that
    [json.dumps] prints for it matter.  A finite float is identified with
    its [repr]. *)
Inductive pyfloat : Type :=
| FNaN
| FInfinity
| FNegInfinity
| FFinite (repr : string).

#[local] Unset Elimination Schemes.
Inductive pyval : Type :=
| PNone
| PBool (b : bool)
| PInt (z : Z)
| PFloat (f : pyfloat)
| PStr (s : string)
| PList (l : list pyval)
| PDict (d : list (string * pyval)).
#[local] Set Elimination Schemes.

Notation dict := (list (string * pyval)).

(** Exceptions: what a [raise] carries, an instance of some class below
    [BaseException].  [exn_class] is the name of the class and [exn_str]
    is what [str(e)] (and so [f"{e}"]) yields. *)
Record exn : Type := Exn { exn_class : string; exn_str : string }.

(** The builtin classes that do not derive from [Exception]. *)
Definition NOT_EXCEPTIONS : list string :=
  ["BaseException"; "BaseExceptionGroup"; "GeneratorExit"; "KeyboardInterrupt";
   "SystemExit"].

(** [isinstance(e, Exception)] *)
Definition is_Exception (e : exn) : bool :=
  negb (existsb (String.eqb (exn_class e)) NOT_EXCEPTIONS).

Inductive pyresult (A : Type) : Type :=
| Return (a : A)
| Raise (e : exn).
Arguments Return {A} a.
Arguments Raise {A} e.

Definition rbind {A B} (r : pyresult A) (k : A → pyresult B) : pyresult B :=
  match r with
  | Return a => k a
  | Raise e => Raise e
  end.

Declare Scope py_scope.
Delimit Scope py_scope with py.
Notation "x '<~' c ';' k" := (rbind c (fun x => k))
  (at level 100, c at next level, right associativity) : py_scope.

(** [for x in xs: ... f(x) ...] accumulating into a list; the first
    exception abandons the loop. *)
Fixpoint rmapM {A B} (f : A → pyresult B) (xs : list A) : pyresult (list B) :=
  match xs with
  | [] => Return []
  | x :: xs' => (y <~ f x; ys <~ rmapM f xs'; Return (y :: ys))%py
  end.

(** *** Truth values, [or], [type(o).__name__] *)

Definition float_truthy (f : pyfloat) : bool :=
  match f with
  | FFinite r => negb (String.eqb r "0.0" || String.eqb r "-0.0")
  | _ => true
  end.

Definition str_truthy (s : string) : bool :=
  match s with
  | EmptyString => false
  | _ => true
  end.

Definition truthy (v : pyval) : bool :=
  match v with
  | PNone => false
  | PBool b => b
  | PInt z => negb (z =? 0)
  | PFloat f => float_truthy f
  | PStr s => str_truthy s
  | PList l => match l with [] => false | _ => true end
  | PDict d => match d with [] => false | _ => true end
  end.

(** [a or b] *)
Definition py_or (a b : pyval) : pyval := if truthy a then a else b.

Definition type_name (v : pyval) : string :=
  match v with
  | PNone => "NoneType"
  | PBool _ => "bool"
  | PInt _ => "int"
  | PFloat _ => "float"
  | PStr _ => "str"
  | PList _ => "list"
  | PDict _ => "dict"
  end.

(** [Optional[...]] attributes as Python values *)
Definition of_opt_str (o : option string) : pyval :=
  match o with Some s => PStr s | None => PNone end.
Definition of_opt_int (o : option Z) : pyval :=
  match o with Some z => PInt z | None => PNone end.
Definition of_opt_bool (o : option bool) : pyval :=
  match o with Some b => PBool b | None => PNone end.

(** *** Dictionaries *)

Fixpoint dict_lookup (k : string) (d : dict) : option pyval :=
  match d with
  | [] => None
  | (k', v) :: d' => if String.eqb k k' then Some v else dict_lookup k d'
  end.

Definition dict_has (k : string) (d : dict) : bool :=
  match dict_lookup k d with Some _ => true | None => false end.

(** [d[k] = v]: overwrite in place, or append a new key at the end. *)
Fixpoint dict_set (d : dict) (k : string) (v : pyval) : dict :=
  match d with
  | [] => [(k, v)]
  | (k', v') :: d' =>
      if String.eqb k k' then (k', v) :: d' else (k', v') :: dict_set d' k v
  end.

Definition dict_keys (d : dict) : list string := map fst d.

Definition is_none (v : pyval) : bool :=
  match v with PNone => true | _ => false end.

(** *** The operations of the code on a value of unknown type *)

Definition AttributeError (v : pyval) (attr : string) : exn :=
  Exn "AttributeError"
      ("'" +:+ type_name v +:+ "' object has no attribute '" +:+ attr +:+ "'").

Definition TypeError (msg : string) : exn := Exn "TypeError" msg.

(** [KeyError(k)] prints as the [repr] of the key. *)
Definition KeyError (k : string) : exn := Exn "KeyError" ("'" +:+ k +:+ "'").

(** [o.get(k, default)] *)
Definition py_get (o : pyval) (k : string) (default : pyval) : pyresult pyval :=
  match o with
  | PDict d => Return (match dict_lookup k d with Some v => v | None => default end)
  | _ => Raise (AttributeError o "get")
  end.

Fixpoint chars (s : string) : list pyval :=
  match s with
  | EmptyString => []
  | String c s' => PStr (String c EmptyString) :: chars s'
  end.

(** The items that [for x in o] visits. *)
Definition py_iter (o : pyval) : pyresult (list pyval) :=
  match o with
  | PList l => Return l
  | PDict d => Return (map PStr (dict_keys d))
  | PStr s => Return (chars s)
  | _ => Raise (TypeError ("'" +:+ type_name o +:+ "' object is not iterable"))
  end.

Fixpoint is_substring (k s : string) : bool :=
  String.prefix k s ||
  match s with
  | EmptyString => false
  | String _ s' => is_substring k s'
  end.

(** [k in o] for a string [k] *)
Definition py_in (k : string) (o : pyval) : pyresult bool :=
  match o with
  | PDict d => Return (dict_has k d)
  | PList l =>
      Return (existsb (fun v => match v with PStr s => String.eqb s k | _ => false end) l)
  | PStr s => Return (is_substring k s)
  | _ => Raise (TypeError ("argument of type '" +:+ type_name o +:+ "' is not iterable"))
  end.

(** [o[k]] for a string [k] *)
Definition py_getitem (o : pyval) (k : string) : pyresult pyval :=
  match o with
  | PDict d =>
      match dict_lookup k d with
      | Some v => Return v
      | None => Raise (KeyError k)
      end
  | PList _ => Raise (TypeError "list indices must be integers or slices, not str")
  | PStr _ => Raise (TypeError "string indices must be integers, not 'str'")
  | _ => Raise (TypeError ("'" +:+ type_name o +:+ "' object is not subscriptable"))
  end.

(** ** [json.dumps(obj, indent=4)]

    The defaults of the standard encoder apply: [ensure_ascii=True], item
    separator [","] and key separator [": "].  A character of a [string]
    stands for the code point of the same number. *)

Definition dq : string := String "034"%char EmptyString.
Definition nl : string := String "010"%char EmptyString.
Definition backslash : string := String "092"%char EmptyString.

Definition hex_digit (n : N) : ascii :=
  if (n <? 10)%N then ascii_of_N (48 + n) else ascii_of_N (87 + n).

(** ['\\u{0:04x}'.format(n)] for [n < 256] *)
Definition u_escape (n : N) : string :=
  backslash +:+ "u00" +:+
  String (hex_digit (n / 16)) (String (hex_digit (n mod 16)) EmptyString).

(** [ESCAPE_DCT], and the [\uXXXX] form for what is not printable ASCII *)
Definition escape_char (c : ascii) : string :=
  let n := N_of_ascii c in
  if (n =? 34)%N then backslash +:+ dq
  else if (n =? 92)%N then backslash +:+ backslash
  else if (n =? 10)%N then backslash +:+ "n"
  else if (n =? 13)%N then backslash +:+ "r"
  else if (n =? 9)%N then backslash +:+ "t"
  else if (n =? 12)%N then backslash +:+ "f"
  else if (n =? 8)%N then backslash +:+ "b"
  else if ((n <? 32) || (126 <? n))%N then u_escape n
  else String c EmptyString.

Fixpoint escape_string (s : string) : string :=
  match s with
  | EmptyString => EmptyString
  | String c s' => escape_char c +:+ escape_string s'
  end.

Definition encode_basestring_ascii (s : string) : string :=
  dq +:+ escape_string s +:+ dq.

Definition int_repr (z : Z) : string := NilZero.string_of_int (Z.to_int z).

Definition floatstr (f : pyfloat) : string :=
  match f with
  | FNaN => "NaN"
  | FInfinity => "Infinity"
  | FNegInfinity => "-Infinity"
  | FFinite r => r
  end.

Fixpoint indent_by (level : nat) : string :=
  match level with
  | O => EmptyString
  | S n => "    " +:+ indent_by n
  end.

Fixpoint join (sep : string) (parts : list string) : string :=
  match parts with
  | [] => EmptyString
  | [p] => p
  | p :: ps => p +:+ sep +:+ join sep ps
  end.

Fixpoint iterencode (level : nat) (o : pyval) : string :=
  let newline_indent := nl +:+ indent_by (S level) in
  let separator := "," +:+ newline_indent in
  match o with
  | PNone => "null"
  | PBool true => "true"
  | PBool false => "false"
  | PInt z => int_repr z
  | PFloat f => floatstr f
  | PStr s => encode_basestring_ascii s
  | PList [] => "[]"
  | PList lst =>
      "[" +:+ newline_indent +:+
      join separator (map (iterencode (S level)) lst) +:+
      nl +:+ indent_by level +:+ "]"
  | PDict [] => "{}"
  | PDict dct =>
      "{" +:+ newline_indent +:+
      join separator
        (map (fun kv => encode_basestring_ascii (fst kv) +:+ ": " +:+
                        iterencode (S level) (snd kv)) dct) +:+
      nl +:+ indent_by level +:+ "}"
  end.

Definition json_dumps (obj : pyval) : string := iterencode 0 obj.

(** ** The world: HTTP transport and logger *)

Record request : Type := Request {
  req_url : string;
  req_params : dict;
  req_headers : dict
}.

(** What the code uses of a [requests.Response]: the status line (for
    [raise_for_status]) and the outcome of decoding the body ([json()]). *)
Record response : Type := Response {
  status_code : Z;
  reason : string;
  resp_url : string;
  json : pyresult pyval
}.

Definition HTTPError (msg : string) : exn := Exn "HTTPError" msg.

(** [Response.raise_for_status] of the [requests] library *)
Definition raise_for_status (r : response) : pyresult unit :=
  if (400 <=? status_code r) && (status_code r <? 500) then
    Raise (HTTPError (int_repr (status_code r) +:+ " Client Error: " +:+
                      reason r +:+ " for url: " +:+ resp_url r))
  else if (500 <=? status_code r) && (status_code r <? 600) then
    Raise (HTTPError (int_repr (status_code r) +:+ " Server Error: " +:+
                      reason r +:+ " for url: " +:+ resp_url r))
  else Return tt.

(** The upstream service and the network in front of it: given the
    requests sent so far and the present one, a response or an exception
    ([ConnectionError], [Timeout], ...). *)
Definition upstream : Type := list request → request → pyresult response.

Inductive loglevel : Type := INFO | ERROR.

Record world : Type := World {
  sent : list request;
  logged : list (loglevel * string)
}.

Definition M (A : Type) : Type := world → pyresult A * world.

Definition mret {A} (a : A) : M A := fun w => (Return a, w).

Definition mbind {A B} (c : M A) (k : A → M B) : M B :=
  fun w =>
    match c w with
    | (Return a, w') => k a w'
    | (Raise e, w') => (Raise e, w')
    end.

Definition lift {A} (r : pyresult A) : M A := fun w => (r, w).

(** [try: body / except Exception as e: handler(e)]: the handler takes
    the instances of [Exception]; anything else ([KeyboardInterrupt],
    [SystemExit]) goes on to the caller. *)
Definition try_except {A} (body : M A) (handler : exn → M A) : M A :=
  fun w =>
    match body w with
    | (Return a, w') => (Return a, w')
    | (Raise e, w') => if is_Exception e then handler e w' else (Raise e, w')
    end.

Notation "x '<-' c ';;' k" := (mbind c (fun x => k))
  (at level 100, c at next level, right associativity) : py_scope.
Notation "c ';;' k" := (mbind c (fun _ => k))
  (at level 100, right associativity) : py_scope.

Definition logger_info (msg : string) : M unit :=
  fun w => (Return tt, World (sent w) (logged w ++ [(INFO, msg)])).

Definition logger_error (msg : string) : M unit :=
  fun w => (Return tt, World (sent w) (logged w ++ [(ERROR, msg)])).

(** ** The toolkit *)

Module BraveSearch.

Definition BASE_URL : string := "https://api.search.brave.com/res/v1/web/search".

(** [requests.Session]: the headers this code sets on it *)
Record Session : Type := { headers : dict }.

Record t : Type := {
  (* Toolkit *)
  name : string;
  functions : list string;
  (* BraveSearch *)
  api_key : option string;
  show_results : bool;
  country : string;
  search_lang : string;
  ui_lang : string;
  safesearch : string;
  text_decorations : bool;
  spellcheck : bool;
  num_results : option Z;
  freshness : option string;
  result_filter : option string;
  goggles_id : option string;
  units : option string;
  extra_snippets : option bool;
  summary : bool;
  session : Session
}.

(** The arguments of [__init__]; [defaults] holds the default values of
    the signature. *)
Record init_args : Type := {
  arg_api_key : option string;
  arg_country : string;
  arg_search_lang : string;
  arg_ui_lang : string;
  arg_safesearch : string;
  arg_text_decorations : bool;
  arg_spellcheck : bool;
  arg_num_results : option Z;
  arg_freshness : option string;
  arg_result_filter : option string;
  arg_goggles_id : option string;
  arg_units : option string;
  arg_extra_snippets : option bool;
  arg_summary : bool;
  arg_show_results : bool
}.

Definition defaults : init_args := {|
  arg_api_key := None;
  arg_country := "us";
  arg_search_lang := "en";
  arg_ui_lang := "en-US";
  arg_safesearch := "moderate";
  arg_text_decorations := true;
  arg_spellcheck := true;
  arg_num_results := None;
  arg_freshness := None;
  arg_result_filter := None;
  arg_goggles_id := None;
  arg_units := None;
  arg_extra_snippets := None;
  arg_summary := true;
  arg_show_results := false
|}.

(** [os.getenv] on the process environment *)
Definition getenv (environ : gmap string string) (k : string) : option string :=
  environ !! k.

(** [a or b] on optional strings *)
Definition or_opt_str (a b : option string) : option string :=
  if truthy (of_opt_str a) then a else b.

Definition init (environ : gmap string string) (a : init_args) : M t :=
  (let api_key := or_opt_str (arg_api_key a) (getenv environ "BRAVE_SEARCH_API_KEY") in
   (if negb (truthy (of_opt_str api_key)) then
      logger_error "BRAVE_SEARCH_API_KEY not set. Please set the BRAVE_SEARCH_API_KEY environment variable."
    else mret tt);;
   mret {|
     name := "brave_search";
     functions := ["search_brave"];
     api_key := api_key;
     show_results := arg_show_results a;
     country := arg_country a;
     search_lang := arg_search_lang a;
     ui_lang := arg_ui_lang a;
     safesearch := arg_safesearch a;
     text_decorations := arg_text_decorations a;
     spellcheck := arg_spellcheck a;
     num_results := arg_num_results a;
     freshness := arg_freshness a;
     result_filter := arg_result_filter a;
     goggles_id := arg_goggles_id a;
     units := arg_units a;
     extra_snippets := arg_extra_snippets a;
     summary := arg_summary a;
     session := {| headers := [("X-Subscription-Token", of_opt_str api_key)] |}
   |})%py.

(** [self.session.get(url, params=params)]: one request goes out. *)
Definition session_get (net : upstream) (s : Session) (url : string) (params : dict)
  : M response :=
  fun w =>
    let req := Request url params (headers s) in
    (net (sent w) req, World (sent w ++ [req]) (logged w)).

(** The dict literal assigned to [search_kwargs]. *)
Definition search_kwargs (self : t) (query : string) (num_results : Z) : dict :=
  [ ("q", PStr query);
    ("country", PStr self.(country));
    ("search_lang", PStr self.(search_lang));
    ("ui_lang", PStr self.(ui_lang));
    ("safesearch", PStr self.(safesearch));
    ("text_decorations", PBool self.(text_decorations));
    ("spellcheck", PBool self.(spellcheck));
    ("count", py_or (of_opt_int self.(BraveSearch.num_results)) (PInt num_results));
    ("freshness", of_opt_str self.(freshness));
    ("result_filter", of_opt_str self.(result_filter));
    ("goggles_id", of_opt_str self.(goggles_id));
    ("units", of_opt_str self.(units));
    ("extra_snippets", of_opt_bool self.(extra_snippets));
    ("summary", PBool self.(summary)) ].

(** [{k: v for k, v in search_kwargs.items() if v is not None}] *)
Definition clean_kwargs (kwargs : dict) : dict :=
  List.filter (fun kv => negb (is_none (snd kv))) kwargs.

(** The request parameters that reach [session.get]. *)
Definition request_params (self : t) (query : string) (num_results : Z) : dict :=
  clean_kwargs (search_kwargs self query num_results).

(** The body of the loop over the web results. *)
Definition parse_result (result : pyval) : pyresult pyval :=
  (url <~ py_get result "url" PNone;
   title <~ py_get result "title" PNone;
   description <~ py_get result "description" PNone;
   let result_dict := [("url", url); ("title", title); ("description", description)] in
   cond <~ py_get result "extra_snippets" PNone;
   if truthy cond then
     snippets <~ py_get result "extra_snippets" PNone;
     Return (PDict (dict_set result_dict "extra_snippets" snippets))
   else Return (PDict result_dict))%py.

(** [for result in brave_results.get("web", {}).get("results", []): ...] *)
Definition parse_web_results (brave_results : pyval) : pyresult (list pyval) :=
  (web <~ py_get brave_results "web" (PDict []);
   results <~ py_get web "results" (PList []);
   items <~ py_iter results;
   rmapM parse_result items)%py.

(** The summarizer block: the elements it appends to the list (none or
    one). *)
Definition parse_summarizer (brave_results : pyval) : pyresult (list pyval) :=
  (summarizer <~ py_get brave_results "summarizer" (PDict []);
   if truthy summarizer then
     type <~ py_get summarizer "type" PNone;
     status <~ py_get summarizer "status" PNone;
     title <~ py_get summarizer "title" PNone;
     summary <~ py_get summarizer "summary" (PList []);
     followups <~ py_get summarizer "followups" (PList []);
     let summary_dict :=
       [("type", type); ("status", status); ("title", title);
        ("summary", summary); ("followups", followups)] in
     has_enrichments <~ py_in "enrichments" summarizer;
     summary_dict <~
       (if has_enrichments : bool then
          v <~ py_getitem summarizer "enrichments";
          Return (dict_set summary_dict "enrichments" v)
        else Return summary_dict);
     has_entities_infos <~ py_in "entities_infos" summarizer;
     summary_dict <~
       (if has_entities_infos : bool then
          v <~ py_getitem summarizer "entities_infos";
          Return (dict_set summary_dict "entities_infos" v)
        else Return summary_dict);
     Return [PDict [("summarizer", PDict summary_dict)]]
   else Return [])%py.

(** [brave_results_parsed] when the two blocks are through. *)
Definition parse_results (brave_results : pyval) : pyresult (list pyval) :=
  (web <~ parse_web_results brave_results;
   summarizer <~ parse_summarizer brave_results;
   Return (web ++ summarizer))%py.

(** The [try] block of [search_brave]. *)
Definition search_brave_try (net : upstream) (self : t) (query : string) (num_results : Z)
  : M string :=
  (logger_info ("Searching Brave for: " +:+ query);;
   let search_kwargs := search_kwargs self query num_results in
   let search_kwargs := clean_kwargs search_kwargs in
   response <- session_get net self.(session) BASE_URL search_kwargs;;
   lift (raise_for_status response);;
   brave_results <- lift (json response);;
   brave_results_parsed <- lift (parse_results brave_results);;
   let parsed_results := json_dumps (PList brave_results_parsed) in
   (if self.(show_results) then logger_info parsed_results else mret tt);;
   mret parsed_results)%py.

Definition search_brave (net : upstream) (self : t) (query : string) (num_results : Z)
  : M string :=
  if negb (truthy (of_opt_str self.(api_key))) then
    mret "Please set the BRAVE_SEARCH_API_KEY"
  else
    try_except (search_brave_try net self query num_results)
      (fun e =>
         (logger_error ("Failed to search Brave " +:+ exn_str e);;
          mret ("Error: " +:+ exn_str e))%py).

Definition run (net : upstream) (self : t) (query : string) (num_results : Z) : M string :=
  search_brave net self query num_results.

(** The default of the [num_results] argument of [search_brave] and [run] *)
Definition num_results_default : Z := 10.

End BraveSearch.

Import BraveSearch.

(** ** Vocabulary of the statements *)

(** [not self.api_key] is false *)
Definition has_api_key (self : t) : bool := truthy (of_opt_str self.(api_key)).

(** The one request a call sends. *)
Definition the_request (self : t) (query : string) (num_results : Z) : request :=
  Request BASE_URL (request_params self query num_results) (headers self.(session)).

(** What the steps after [session.get] make of the upstream answer. *)
Definition digest (answer : pyresult response) : pyresult (list pyval) :=
  (response <~ answer;
   _ <~ raise_for_status response;
   brave_results <~ json response;
   parse_results brave_results)%py.

(** The upstream answers this call with a success status and a body that
    decodes to [brave_results]. *)
Definition answers_json (net : upstream) (w : world) (req : request)
    (brave_results : pyval) : Prop :=
  ∃ r, net (sent w) req = Return r ∧ raise_for_status r = Return tt ∧
       json r = Return brave_results.

Definition get_or (default : pyval) (k : string) (d : dict) : pyval :=
  match dict_lookup k d with Some v => v | None => default end.

(** Spec, step 5: the [web.results] list, missing or absent treated as
    empty.  [None] when the body does not have that shape. *)
Definition web_entries (brave_results : pyval) : option (list pyval) :=
  match brave_results with
  | PDict d =>
      match dict_lookup "web" d with
      | None => Some []
      | Some (PDict web) =>
          match dict_lookup "results" web with
          | None => Some []
          | Some (PList l) => Some l
          | Some _ => None
          end
      | Some _ => None
      end
  | _ => None
  end.

Definition is_dict (v : pyval) : bool :=
  match v with PDict _ => true | _ => false end.

(** The body has no summarizer section. *)
Definition no_summarizer (brave_results : pyval) : bool :=
  match brave_results with
  | PDict d => negb (dict_has "summarizer" d)
  | _ => false
  end.

(** The configuration fields declared [Optional] that feed a request
    parameter, the parameter each one feeds, and its value. *)
Inductive optional_field : Type :=
| NumResults | Freshness | ResultFilter | GogglesId | Units | ExtraSnippets.

Definition param_key (f : optional_field) : string :=
  match f with
  | NumResults => "count"
  | Freshness => "freshness"
  | ResultFilter => "result_filter"
  | GogglesId => "goggles_id"
  | Units => "units"
  | ExtraSnippets => "extra_snippets"
  end.

Definition field_value (self : t) (f : optional_field) : pyval :=
  match f with
  | NumResults => of_opt_int self.(num_results)
  | Freshness => of_opt_str self.(freshness)
  | ResultFilter => of_opt_str self.(result_filter)
  | GogglesId => of_opt_str self.(goggles_id)
  | Units => of_opt_str self.(units)
  | ExtraSnippets => of_opt_bool self.(extra_snippets)
  end.

Definition unset (self : t) (f : optional_field) : bool := is_none (field_value self f).

(** An output object [o] is the projection of the source entry [e]: the
    three required keys in order, each with the value of the source or
    [None]; then [extra_snippets] with the value of the source, present
    exactly when [present e] holds. *)
Definition projection_of (present : dict → bool) (e o : pyval) : Prop :=
  ∃ ed od, e = PDict ed ∧ o = PDict od ∧
    dict_keys od =
      ["url"; "title"; "description"] ++
      (if present ed then ["extra_snippets"] else []) ∧
    ∀ k, dict_has k od = true → dict_lookup k od = Some (get_or PNone k ed).

(** [if result.get("extra_snippets")] *)
Definition snippets_truthy (ed : dict) : bool := truthy (get_or PNone "extra_snippets" ed).

(** The source entry provides an [extra_snippets] list. *)
Definition snippets_list (ed : dict) : bool :=
  match dict_lookup "extra_snippets" ed with
  | Some (PList _) => true
  | _ => false
  end.

(** The object built for one source entry. *)
Definition projected (ed : dict) : dict :=
  [("url", get_or PNone "url" ed); ("title", get_or PNone "title" ed);
   ("description", get_or PNone "description" ed)] ++
  (if snippets_truthy ed then [("extra_snippets", get_or PNone "extra_snippets" ed)]
   else []).

(** Spec, step 6: the summarizer object, if present and non-empty. *)
Definition source_summarizer (brave_results : pyval) : option dict :=
  match brave_results with
  | PDict d =>
      match dict_lookup "summarizer" d with
      | Some (PDict (kv :: sd)) => Some (kv :: sd)
      | _ => None
      end
  | _ => None
  end.

(** The element appended for the summarizer. *)
Definition summarizer_element (summary_dict : dict) : pyval :=
  PDict [("summarizer", PDict summary_dict)].

(** What a summary field holds when the source lacks it. *)
Definition summary_default (k : string) : pyval :=
  if String.eqb k "summary" || String.eqb k "followups" then PList [] else PNone.

(** *** Statements in the words of the spec, for comparison with the code *)

(** "For every optional configuration field left unset, the request
    parameter set contains no key for that field." *)
Definition every_unset_field_omitted : Prop :=
  ∀ self query num_results f,
    unset self f = true →
    dict_has (param_key f) (request_params self query num_results) = false.

(** "The count parameter equals the client-level configured result count
    when one is configured, and otherwise the call's num_results." *)
Definition count_as_stated (self : t) (num_results : Z) : Z :=
  match self.(BraveSearch.num_results) with
  | Some configured => configured
  | None => num_results
  end.

Definition count_is_configured_count : Prop :=
  ∀ self query num_results,
    dict_lookup "count" (request_params self query num_results) =
      Some (PInt (count_as_stated self num_results)).

(** "N objects in the same order, each containing only the keys url, title
    and description, plus an extra_snippets key exactly when the source
    entry provided an extra_snippets list." *)
Definition snippets_exactly_when_list_provided : Prop :=
  ∀ brave_results entries parsed,
    web_entries brave_results = Some entries →
    Forall (fun e => is_dict e = true) entries →
    no_summarizer brave_results = true →
    parse_results brave_results = Return parsed →
    Forall2 (projection_of snippets_list) entries parsed.

(** "The final element is an object {"summarizer": {...}} in which only
    the fields present in the source summarizer are reflected, with
    enrichments and entities_infos included exactly when those keys exist
    in the source object." *)
Definition only_source_fields_reflected : Prop :=
  ∀ brave_results sd web,
    source_summarizer brave_results = Some sd →
    parse_web_results brave_results = Return web →
    ∃ out,
      parse_results brave_results = Return (web ++ [summarizer_element out]) ∧
      (∀ k, dict_has k out = true → dict_lookup k out = dict_lookup k sd) ∧
      dict_has "enrichments" out = dict_has "enrichments" sd ∧
      dict_has "entities_infos" out = dict_has "entities_infos" sd.

(** ** Sample data *)

(** [BraveSearch(api_key="BSA-demo")] *)
Definition demo_args : init_args := {|
  arg_api_key := Some "BSA-demo";
  arg_country := "us";
  arg_search_lang := "en";
  arg_ui_lang := "en-US";
  arg_safesearch := "moderate";
  arg_text_decorations := true;
  arg_spellcheck := true;
  arg_num_results := None;
  arg_freshness := None;
  arg_result_filter := None;
  arg_goggles_id := None;
  arg_units := None;
  arg_extra_snippets := None;
  arg_summary := true;
  arg_show_results := false
|}.

Definition demo_client : t := {|
  name := "brave_search";
  functions := ["search_brave"];
  api_key := Some "BSA-demo";
  show_results := false;
  country := "us";
  search_lang := "en";
  ui_lang := "en-US";
  safesearch := "moderate";
  text_decorations := true;
  spellcheck := true;
  num_results := None;
  freshness := None;
  result_filter := None;
  goggles_id := None;
  units := None;
  extra_snippets := None;
  summary := true;
  session := {| headers := [("X-Subscription-Token", PStr "BSA-demo")] |}
|}.

(** [BraveSearch(api_key="BSA-demo", num_results=0)] *)
Definition zero_count_client : t := {|
  name := "brave_search";
  functions := ["search_brave"];
  api_key := Some "BSA-demo";
  show_results := false;
  country := "us";
  search_lang := "en";
  ui_lang := "en-US";
  safesearch := "moderate";
  text_decorations := true;
  spellcheck := true;
  num_results := Some 0;
  freshness := None;
  result_filter := None;
  goggles_id := None;
  units := None;
  extra_snippets := None;
  summary := true;
  session := {| headers := [("X-Subscription-Token", PStr "BSA-demo")] |}
|}.

Definition w0 : world := World [] [].

Definition ok (body : pyval) : response :=
  {| status_code := 200; reason := "OK"; resp_url := BASE_URL; json := Return body |}.

(** An upstream that answers every request with the same body. *)
Definition serve (body : pyval) : upstream := fun _ _ => Return (ok body).

(** A network that is down. *)
Definition net_down : upstream :=
  fun _ _ => Raise (Exn "ConnectionError" "Connection refused").

(** The example of the spec: one hit, no summarizer. *)
Definition paris_entry : pyval :=
  PDict [("url", PStr "https://x.com"); ("title", PStr "Paris");
         ("description", PStr "Capital of France")].

Definition paris_body : pyval := PDict [("web", PDict [("results", PList [paris_entry])])].

(** A hit that carries an empty [extra_snippets] list and lacks a title. *)
Definition bare_entry : pyval :=
  PDict [("url", PStr "https://y.org"); ("description", PStr "no title here");
         ("extra_snippets", PList [])].

Definition bare_body : pyval := PDict [("web", PDict [("results", PList [bare_entry])])].

Definition summarizer_body : pyval :=
  PDict [("web", PDict [("results", PList [paris_entry])]);
         ("summarizer",
          PDict [("type", PStr "summarizer"); ("status", PStr "complete");
                 ("summary", PList [PStr "Paris."]);
                 ("enrichments", PDict [("raw", PStr "Paris.")]);
                 ("key", PStr "k1")])].

Definition summarizer_source : dict :=
  [("type", PStr "summarizer"); ("status", PStr "complete");
   ("summary", PList [PStr "Paris."]);
   ("enrichments", PDict [("raw", PStr "Paris.")]);
   ("key", PStr "k1")].

Definition projected_paris : list pyval :=
  [PDict [("url", PStr "https://x.com"); ("title", PStr "Paris");
          ("description", PStr "Capital of France")]].

(** ** The script entry point and further vocabulary *)

(** [if __name__ == "__main__":] the client is built with the defaults of
    the signature and asked one fixed question; the value is the string
    handed to [print]. *)
Definition main (net : upstream) (environ : gmap string string) : M string :=
  (search <- init environ defaults;;
   search_brave net search "what is the weather in new york city" 5)%py.

(** The same client with another [show_results]. *)
Definition with_show_results (b : bool) (self : t) : t := {|
  name := self.(name);
  functions := self.(functions);
  api_key := self.(api_key);
  show_results := b;
  country := self.(country);
  search_lang := self.(search_lang);
  ui_lang := self.(ui_lang);
  safesearch := self.(safesearch);
  text_decorations := self.(text_decorations);
  spellcheck := self.(spellcheck);
  num_results := self.(num_results);
  freshness := self.(freshness);
  result_filter := self.(result_filter);
  goggles_id := self.(goggles_id);
  units := self.(units);
  extra_snippets := self.(extra_snippets);
  summary := self.(summary);
  session := self.(session)
|}.

(** The types a [for] loop accepts among the values JSON decodes to. *)
Definition is_iterable (v : pyval) : bool :=
  match v with
  | PList _ | PDict _ | PStr _ => true
  | _ => false
  end.

(** The key of an optional field when the field is set. *)
Definition key_if_set (self : t) (f : optional_field) : list string :=
  if unset self f then [] else [param_key f].

Definition ENV_KEY : string := "BRAVE_SEARCH_API_KEY".

Definition MISSING_KEY_LOG : string :=
  "BRAVE_SEARCH_API_KEY not set. Please set the BRAVE_SEARCH_API_KEY environment variable.".

Definition SENTINEL : string := "Please set the BRAVE_SEARCH_API_KEY".

(** The log records one call with a key adds, given what the steps after
    [session.get] made of the upstream answer. *)
Definition call_log (self : t) (query : string) (outcome : pyresult (list pyval))
  : list (loglevel * string) :=
  (INFO, "Searching Brave for: " +:+ query) ::
  match outcome with
  | Return parsed =>
      if self.(show_results) then [(INFO, json_dumps (PList parsed))] else []
  | Raise e =>
      if is_Exception e then [(ERROR, "Failed to search Brave " +:+ exn_str e)]
      else []
  end.

(** "With an API key present, any exception raised in the call comes back
    as a string and is never propagated to the caller." *)
Definition every_exception_contained : Prop :=
  ∀ net self query num_results w,
    has_api_key self = true →
    ∃ s, fst (search_brave net self query num_results w) = Return s.

(** More sample data *)

(** The user interrupts the request with Ctrl-C. *)
Definition net_interrupted : upstream :=
  fun _ _ => Raise (Exn "KeyboardInterrupt" "").


Definition env_with_key : gmap string string := {[ "BRAVE_SEARCH_API_KEY" := "BSA-env" ]}.

Definition fresh_client : t := {|
  name := "brave_search";
  functions := ["search_brave"];
  api_key := Some "BSA-demo";
  show_results := true;
  country := "de";
  search_lang := "de";
  ui_lang := "de-DE";
  safesearch := "off";
  text_decorations := false;
  spellcheck := false;
  num_results := Some 3;
  freshness := Some "pw";
  result_filter := None;
  goggles_id := None;
  units := Some "metric";
  extra_snippets := Some false;
  summary := false;
  session := {| headers := [("X-Subscription-Token", PStr "BSA-demo")] |}
|}.

Definition not_found : response :=
  {| status_code := 404; reason := "Not Found"; resp_url := BASE_URL;
     json := Return paris_body |}.

(** A body whose second entry is not an object. *)
Definition broken_body : pyval :=
  PDict [("web", PDict [("results", PList [paris_entry; PStr "oops"; paris_entry])])].

Definition null_web_body : pyval := PDict [("web", PNone)].

Definition null_results_body : pyval := PDict [("web", PDict [("results", PNone)])].

Definition empty_summarizer_body : pyval :=
  PDict [("web", PDict [("results", PList [paris_entry])]); ("summarizer", PDict [])].

Definition text_summarizer_body : pyval :=
  PDict [("web", PDict [("results", PList [paris_entry])]);
         ("summarizer", PStr "Paris is the capital.")].

(** Case analysis on which literal key [k] is. *)
Ltac by_key k :=
  repeat match goal with
    | |- context [String.eqb k ?lit] =>
        let E := fresh "E" in
        destruct (String.eqb k lit) eqn:E;
        [apply String.eqb_eq in E; subst k; try reflexivity | ]
    end.

(** ** The monad, step by step *)

Lemma rbind_Return {A B} (r : pyresult A) (k : A → pyresult B) (b : B) :
  rbind r k = Return b → ∃ a, r = Return a ∧ k a = Return b.
Proof. destruct r as [a|e]; simpl; [eauto | discriminate]. Qed.

Lemma rmapM_length {A B} (f : A → pyresult B) xs ys :
  rmapM f xs = Return ys → length ys = length xs.
Proof.
  revert ys. induction xs as [|x xs IH]; intros ys; simpl.
  - intros [= <-]. reflexivity.
  - destruct (f x) as [y|e]; simpl; [|discriminate].
    destruct (rmapM f xs) as [ys'|e]; simpl; [|discriminate].
    intros [= <-]. simpl. f_equal. apply IH. reflexivity.
Qed.

Lemma rmapM_Forall2 {A B} (f : A → pyresult B) (g : A → B) (P : A → Prop) xs :
  (∀ x, P x → f x = Return (g x)) → Forall P xs →
  rmapM f xs = Return (map g xs).
Proof.
  intros Hf. induction 1 as [|x xs Hx _ IH]; simpl; [reflexivity|].
  rewrite (Hf x Hx). simpl. rewrite IH. reflexivity.
Qed.

(** The whole of [search_brave] when a key is there: one INFO record, one
    request, then the serialised list, or the error string for an
    [Exception], or whatever else was raised going through. *)
Lemma search_brave_with_key net self query num_results w :
  has_api_key self = true →
  search_brave net self query num_results w =
    let req := the_request self query num_results in
    let w1 := World (sent w ++ [req])
                    (logged w ++ [(INFO, "Searching Brave for: " +:+ query)]) in
    match digest (net (sent w) req) with
    | Return parsed =>
        let out := json_dumps (PList parsed) in
        (Return out,
         if self.(show_results)
         then World (sent w1) (logged w1 ++ [(INFO, out)]) else w1)
    | Raise e =>
        if is_Exception e then
          (Return ("Error: " +:+ exn_str e),
           World (sent w1)
                 (logged w1 ++ [(ERROR, "Failed to search Brave " +:+ exn_str e)]))
        else (Raise e, w1)
    end.
Proof.
  unfold has_api_key. intros Hkey.
  unfold search_brave. rewrite Hkey. simpl.
  unfold try_except, search_brave_try, mbind, logger_info, session_get, lift,
    digest, the_request, request_params. simpl.
  destruct (net (sent w) _) as [r|e]; simpl;
    [|destruct (is_Exception e); reflexivity].
  destruct (raise_for_status r) as [[]|e]; simpl;
    [|destruct (is_Exception e); reflexivity].
  destruct (json r) as [br|e]; simpl;
    [|destruct (is_Exception e); reflexivity].
  destruct (parse_results br) as [parsed|e]; simpl;
    [|destruct (is_Exception e); reflexivity].
  destruct (show_results self); reflexivity.
Qed.

Lemma search_brave_without_key net self query num_results w :
  has_api_key self = false →
  search_brave net self query num_results w =
    (Return "Please set the BRAVE_SEARCH_API_KEY", w).
Proof.
  unfold has_api_key, search_brave. intros ->. reflexivity.
Qed.

(** A call returns a string, unless something that is not an [Exception]
    came up in the [try] block: that goes through to the caller. *)
Lemma search_brave_outcome net self query num_results w :
  (∃ s, fst (search_brave net self query num_results w) = Return s) ∨
  (∃ e, fst (search_brave net self query num_results w) = Raise e ∧
        is_Exception e = false ∧ has_api_key self = true ∧
        digest (net (sent w) (the_request self query num_results)) = Raise e).
Proof.
  destruct (has_api_key self) eqn:Hkey.
  - rewrite search_brave_with_key by assumption. cbv zeta.
    destruct (digest _) as [parsed|e] eqn:Hd; [left; eauto|].
    destruct (is_Exception e) eqn:He; [left; eauto|].
    right. exists e. auto.
  - rewrite search_brave_without_key by assumption. left. eauto.
Qed.

(** What the code itself raises is an [Exception]: the [HTTPError] of
    [raise_for_status] and the attribute, type and key errors of the
    projection. *)
Lemma raise_for_status_Exception r e :
  raise_for_status r = Raise e → is_Exception e = true.
Proof.
  unfold raise_for_status.
  destruct (_ && _); [intros [= <-]; reflexivity|].
  destruct (_ && _); [intros [= <-]; reflexivity | discriminate].
Qed.

Lemma py_get_Exception o k default e :
  py_get o k default = Raise e → is_Exception e = true.
Proof. destruct o; simpl; try discriminate; intros [= <-]; reflexivity. Qed.

Lemma py_iter_Exception o e : py_iter o = Raise e → is_Exception e = true.
Proof. destruct o; simpl; try discriminate; intros [= <-]; reflexivity. Qed.

Lemma py_in_Exception k o e : py_in k o = Raise e → is_Exception e = true.
Proof. destruct o; simpl; try discriminate; intros [= <-]; reflexivity. Qed.

Lemma py_getitem_Exception o k e : py_getitem o k = Raise e → is_Exception e = true.
Proof.
  destruct o; simpl; try discriminate; try (intros [= <-]; reflexivity).
  destruct (dict_lookup k d); [discriminate | intros [= <-]; reflexivity].
Qed.

Lemma rbind_Raise {A B} (r : pyresult A) (k : A → pyresult B) (e : exn) :
  rbind r k = Raise e → r = Raise e ∨ ∃ a, r = Return a ∧ k a = Raise e.
Proof. destruct r as [a|e']; simpl; [eauto | intros [= ->]; auto]. Qed.

(** Peel one step off a chain that raised. *)
Ltac raised H :=
  repeat match type of H with
    | rbind _ _ = Raise _ =>
        apply rbind_Raise in H as [H | (? & _ & H)];
        [try first [ exact (py_get_Exception _ _ _ _ H)
                   | exact (py_iter_Exception _ _ H)
                   | exact (py_in_Exception _ _ _ H)
                   | exact (py_getitem_Exception _ _ _ H) ] | ]
    | (if ?b then _ else _) = Raise _ => destruct b
    | Return _ = Raise _ => discriminate H
    end.

Lemma parse_result_Exception result e :
  parse_result result = Raise e → is_Exception e = true.
Proof. unfold parse_result. intros H. raised H. Qed.

Lemma rmapM_Exception {A B} (f : A → pyresult B) xs e :
  (∀ x e', f x = Raise e' → is_Exception e' = true) →
  rmapM f xs = Raise e → is_Exception e = true.
Proof.
  intros Hf. induction xs as [|x xs IH]; simpl; [discriminate|].
  intros H. apply rbind_Raise in H as [H | (y & _ & H)]; [eauto|].
  apply rbind_Raise in H as [H | (ys & _ & H)]; [auto | discriminate].
Qed.

Lemma parse_web_results_Exception brave_results e :
  parse_web_results brave_results = Raise e → is_Exception e = true.
Proof.
  unfold parse_web_results. intros H. raised H.
  apply (rmapM_Exception parse_result _ _ parse_result_Exception H).
Qed.

Lemma parse_summarizer_Exception brave_results e :
  parse_summarizer brave_results = Raise e → is_Exception e = true.
Proof. unfold parse_summarizer. intros H. raised H. Qed.

Lemma parse_results_Exception brave_results e :
  parse_results brave_results = Raise e → is_Exception e = true.
Proof.
  unfold parse_results. intros H.
  apply rbind_Raise in H as [H | (web & _ & H)];
    [exact (parse_web_results_Exception _ _ H)|].
  apply rbind_Raise in H as [H | (tail & _ & H)];
    [exact (parse_summarizer_Exception _ _ H) | discriminate].
Qed.

(** With a key, a call sends exactly the request [the_request]. *)
Lemma search_brave_sends net self query num_results w :
  has_api_key self = true →
  sent (snd (search_brave net self query num_results w)) =
    sent w ++ [the_request self query num_results].
Proof.
  intros Hkey. rewrite search_brave_with_key by assumption. simpl.
  destruct (digest _) as [parsed|e]; simpl;
    [destruct (show_results self) | destruct (is_Exception e)]; reflexivity.
Qed.

Lemma digest_answers net w req brave_results :
  answers_json net w req brave_results →
  digest (net (sent w) req) = parse_results brave_results.
Proof.
  intros (r & Hr & Hs & Hj). unfold digest. rewrite Hr. simpl.
  rewrite Hs. simpl. rewrite Hj. reflexivity.
Qed.

(** A body that parses comes back serialised. *)
Lemma search_brave_answers net self query num_results w brave_results parsed :
  has_api_key self = true →
  answers_json net w (the_request self query num_results) brave_results →
  parse_results brave_results = Return parsed →
  fst (search_brave net self query num_results w) = Return (json_dumps (PList parsed)).
Proof.
  intros Hkey Hans Hparse. rewrite search_brave_with_key by assumption. simpl.
  rewrite (digest_answers _ _ _ _ Hans), Hparse. reflexivity.
Qed.

(** ** Dictionaries and the request parameters *)

Lemma dict_has_lookup k d : dict_has k d = true ↔ ∃ v, dict_lookup k d = Some v.
Proof.
  unfold dict_has. destruct (dict_lookup k d); split; eauto.
  - discriminate.
  - intros [v [=]].
Qed.

Lemma clean_kwargs_no_None kwargs :
  Forall (fun kv => snd kv ≠ PNone) (clean_kwargs kwargs).
Proof.
  unfold clean_kwargs. induction kwargs as [|[k v] d IH]; simpl; [constructor|].
  destruct v; simpl; try assumption; constructor; simpl; try discriminate; assumption.
Qed.

(** With distinct keys the comprehension drops exactly the [None] items. *)
Lemma dict_lookup_clean k kwargs :
  NoDup (dict_keys kwargs) →
  dict_lookup k (clean_kwargs kwargs) =
    match dict_lookup k kwargs with
    | Some v => if is_none v then None else Some v
    | None => None
    end.
Proof.
  unfold clean_kwargs.
  induction kwargs as [|[k' v] d IH]; simpl; intros Hnd; [reflexivity|].
  apply NoDup_cons in Hnd as [Hk' Hnd]. specialize (IH Hnd).
  assert (Hfresh : String.eqb k k' = true → dict_lookup k (List.filter (fun kv => negb (is_none kv.2)) d) = None).
  { intros ->%String.eqb_eq. rewrite IH.
    destruct (dict_lookup k' d) eqn:E; [|reflexivity]. exfalso. apply Hk'.
    clear -E. induction d as [|[k2 v2] d IHd]; simpl in *; [discriminate|].
    destruct (String.eqb k' k2) eqn:E2.
    - apply String.eqb_eq in E2 as ->. left.
    - right. auto. }
  destruct (is_none v) eqn:Hv; simpl.
  - destruct (String.eqb k k') eqn:E; [rewrite Hv; auto | exact IH].
  - destruct (String.eqb k k') eqn:E; [rewrite Hv; reflexivity | exact IH].
Qed.

Lemma search_kwargs_keys self query num_results :
  dict_keys (search_kwargs self query num_results) =
    ["q"; "country"; "search_lang"; "ui_lang"; "safesearch"; "text_decorations";
     "spellcheck"; "count"; "freshness"; "result_filter"; "goggles_id"; "units";
     "extra_snippets"; "summary"].
Proof. reflexivity. Qed.

Lemma search_kwargs_NoDup self query num_results :
  NoDup (dict_keys (search_kwargs self query num_results)).
Proof.
  rewrite search_kwargs_keys. apply (bool_decide_unpack _). vm_compute. exact I.
Qed.

Lemma request_params_lookup self query num_results k :
  dict_lookup k (request_params self query num_results) =
    match dict_lookup k (search_kwargs self query num_results) with
    | Some v => if is_none v then None else Some v
    | None => None
    end.
Proof. apply dict_lookup_clean, search_kwargs_NoDup. Qed.

(** The value under [count]: [self.num_results or num_results]. *)
Lemma count_param self query num_results :
  dict_lookup "count" (request_params self query num_results) =
    Some (PInt (match self.(BraveSearch.num_results) with
                | Some c => if c =? 0 then num_results else c
                | None => num_results
                end)).
Proof.
  rewrite request_params_lookup. simpl. unfold py_or.
  destruct (BraveSearch.num_results self) as [c|]; simpl; [|reflexivity].
  destruct (c =? 0); reflexivity.
Qed.

(** ** Error containment *)

(** C1 as stated fails when what is raised is not an [Exception]: a
    [KeyboardInterrupt] during the request goes through [except Exception]
    and reaches the caller. *)
Lemma keyboard_interrupt_propagates : ¬ every_exception_contained.
Proof.
  intros H.
  destruct (H net_interrupted demo_client "capital of France" 10 w0 eq_refl)
    as (s & Hs).
  vm_compute in Hs. discriminate.
Qed.

(** C1, amended.  With an API key present, an instance of [Exception]
    raised anywhere in the [try] block — by [session.get] (network
    failure), by [raise_for_status] (status 4xx or 5xx), by
    [response.json()] (malformed body) or while the decoded body is
    projected — comes back as the string ["Error: " + str(e)] and is never
    propagated.  The call either returns a string or lets through
    something that is not an [Exception]. *)
Theorem search_brave_contains_exceptions net self query num_results w :
  has_api_key self = true →
  let req := the_request self query num_results in
  let result := fst (search_brave net self query num_results w) in
  (∀ e w', search_brave_try net self query num_results w = (Raise e, w') →
     is_Exception e = true →
     result = Return ("Error: " +:+ exn_str e)) ∧
  (∀ e, net (sent w) req = Raise e → is_Exception e = true →
     result = Return ("Error: " +:+ exn_str e)) ∧
  (∀ r e, net (sent w) req = Return r → raise_for_status r = Raise e →
     result = Return ("Error: " +:+ exn_str e)) ∧
  (∀ r e, net (sent w) req = Return r → raise_for_status r = Return tt →
     json r = Raise e → is_Exception e = true →
     result = Return ("Error: " +:+ exn_str e)) ∧
  (∀ r brave_results e,
     net (sent w) req = Return r → raise_for_status r = Return tt →
     json r = Return brave_results → parse_results brave_results = Raise e →
     result = Return ("Error: " +:+ exn_str e)) ∧
  ((∃ s, result = Return s) ∨ (∃ e, result = Raise e ∧ is_Exception e = false)) ∧
  (∀ e, result = Raise e → is_Exception e = false).
Proof.
  intros Hkey req result.
  assert (Hdigest : ∀ e, digest (net (sent w) req) = Raise e →
                         is_Exception e = true →
                         result = Return ("Error: " +:+ exn_str e)).
  { intros e He Hexc. subst result req.
    rewrite search_brave_with_key by assumption. cbv zeta. rewrite He, Hexc.
    reflexivity. }
  assert (Hout : (∃ s, result = Return s) ∨
                 (∃ e, result = Raise e ∧ is_Exception e = false)).
  { destruct (search_brave_outcome net self query num_results w)
      as [(s & Hs) | (e & He & Hexc & _)]; [left | right]; eauto. }
  split; [|split; [|split; [|split; [|split; [|split]]]]].
  - intros e w' Hbody Hexc. subst result. unfold search_brave.
    unfold has_api_key in Hkey. rewrite Hkey. simpl.
    unfold try_except. rewrite Hbody, Hexc. reflexivity.
  - intros e He Hexc. apply Hdigest; [|assumption]. rewrite He. reflexivity.
  - intros r e Hr He. apply Hdigest.
    + rewrite Hr. simpl. rewrite He. reflexivity.
    + apply (raise_for_status_Exception _ _ He).
  - intros r e Hr Hs He Hexc. apply Hdigest; [|assumption].
    rewrite Hr. simpl. rewrite Hs. simpl. rewrite He. reflexivity.
  - intros r br e Hr Hs Hj He. apply Hdigest.
    + rewrite Hr. simpl. rewrite Hs. simpl. rewrite Hj. simpl. exact He.
    + apply (parse_results_Exception _ _ He).
  - exact Hout.
  - intros e He. destruct Hout as [(s & Hs) | (e' & He' & Hexc)].
    + rewrite Hs in He. discriminate.
    + rewrite He' in He. injection He as <-. assumption.
Qed.

Lemma search_brave_contains_exceptions_witness :
  fst (search_brave net_down demo_client "capital of France" 10 w0) =
    Return "Error: Connection refused".
Proof.
  destruct (search_brave_contains_exceptions net_down demo_client
              "capital of France" 10 w0 eq_refl) as (_ & Hnet & _).
  exact (Hnet (Exn "ConnectionError" "Connection refused") eq_refl eq_refl).
Defined.

(** C2.  When no API key was passed to the constructor and the environment
    has none either (absent, or empty), construction succeeds and every
    later [search_brave] returns the sentinel
    ["Please set the BRAVE_SEARCH_API_KEY"] at once: the world is left as
    it was, so no request went out, and nothing is raised. *)
Theorem search_brave_missing_key environ args w_init :
  truthy (of_opt_str (arg_api_key args)) = false →
  truthy (of_opt_str (getenv environ "BRAVE_SEARCH_API_KEY")) = false →
  ∃ self w_made,
    init environ args w_init = (Return self, w_made) ∧
    ∀ net query num_results w,
      search_brave net self query num_results w =
        (Return "Please set the BRAVE_SEARCH_API_KEY", w).
Proof.
  intros Harg Henv. unfold init, mbind, or_opt_str. rewrite Harg, Henv. simpl.
  eexists _, _. split; [reflexivity|].
  intros net query num_results w. apply search_brave_without_key.
  unfold has_api_key. simpl. exact Henv.
Qed.

Lemma search_brave_missing_key_witness :
  ∃ self w_made,
    init ∅ defaults w0 = (Return self, w_made) ∧
    ∀ net query num_results w,
      search_brave net self query num_results w =
        (Return "Please set the BRAVE_SEARCH_API_KEY", w).
Proof.
  apply (search_brave_missing_key ∅ defaults w0); reflexivity.
Defined.

(** ** Request assembly *)

(** C3 as stated fails for the result count: with [num_results] left
    unset on the client, the request still carries [count]. *)
Lemma unset_num_results_still_sends_count : ¬ every_unset_field_omitted.
Proof.
  intros H. specialize (H demo_client "capital of France" 10 NumResults eq_refl).
  vm_compute in H. discriminate.
Qed.

(** C3, amended.  For every optional configuration field other than the
    result count (freshness, result_filter, goggles_id, units,
    extra_snippets) that is left unset, the request parameters contain no
    key for that field; [count] is present all the same, and no parameter
    is sent with the value [None]. *)
Theorem unset_optional_fields_omitted self query num_results f :
  f ≠ NumResults →
  unset self f = true →
  dict_has (param_key f) (request_params self query num_results) = false ∧
  dict_has "count" (request_params self query num_results) = true ∧
  Forall (fun kv => snd kv ≠ PNone) (request_params self query num_results).
Proof.
  intros Hf Hunset. split; [|split].
  - unfold dict_has. rewrite request_params_lookup.
    unfold unset in Hunset.
    destruct f; try congruence; simpl in *; rewrite Hunset; reflexivity.
  - unfold dict_has. rewrite count_param. reflexivity.
  - apply clean_kwargs_no_None.
Qed.

Lemma unset_optional_fields_omitted_witness :
  dict_has "freshness" (request_params demo_client "capital of France" 10) = false ∧
  dict_has "count" (request_params demo_client "capital of France" 10) = true ∧
  Forall (fun kv => snd kv ≠ PNone) (request_params demo_client "capital of France" 10).
Proof.
  apply (unset_optional_fields_omitted demo_client "capital of France" 10 Freshness).
  - discriminate.
  - reflexivity.
Defined.

(** C6 as stated fails when the client is configured with a result count
    of zero: the call's [num_results] is sent instead. *)
Lemma zero_count_is_replaced : ¬ count_is_configured_count.
Proof.
  intros H. specialize (H zero_count_client "capital of France" 10).
  vm_compute in H. discriminate.
Qed.

(** C6, amended.  The [count] parameter sent upstream is the client-level
    result count when one is configured and is not zero, and the call's
    [num_results] argument otherwise. *)
Theorem count_sent_upstream net self query num_results w :
  has_api_key self = true →
  ∃ req,
    sent (snd (search_brave net self query num_results w)) = sent w ++ [req] ∧
    dict_lookup "count" (req_params req) =
      Some (PInt (match self.(BraveSearch.num_results) with
                  | Some configured =>
                      if configured =? 0 then num_results else configured
                  | None => num_results
                  end)).
Proof.
  intros Hkey. exists (the_request self query num_results). split.
  - apply search_brave_sends. assumption.
  - apply count_param.
Qed.

Lemma count_sent_upstream_witness :
  ∃ req,
    sent (snd (search_brave net_down zero_count_client "capital of France" 5 w0)) =
      sent w0 ++ [req] ∧
    dict_lookup "count" (req_params req) = Some (PInt 5).
Proof.
  apply (count_sent_upstream net_down zero_count_client "capital of France" 5 w0).
  reflexivity.
Defined.

(** C9.  Every call that gets past the key check sends a request whose
    parameters contain [q] (the query) and [count]; when the client-level
    result count is unset or zero, [count] is the call's [num_results],
    hence 10 when the caller relies on the default. *)
Theorem q_and_count_always_sent net self query num_results w :
  has_api_key self = true →
  ∃ req,
    sent (snd (search_brave net self query num_results w)) = sent w ++ [req] ∧
    dict_lookup "q" (req_params req) = Some (PStr query) ∧
    dict_has "count" (req_params req) = true ∧
    (self.(BraveSearch.num_results) = None ∨ self.(BraveSearch.num_results) = Some 0 →
     dict_lookup "count" (req_params req) = Some (PInt num_results) ∧
     (num_results = num_results_default →
      dict_lookup "count" (req_params req) = Some (PInt 10))).
Proof.
  intros Hkey. exists (the_request self query num_results).
  change (req_params (the_request self query num_results))
    with (request_params self query num_results).
  split; [apply search_brave_sends; assumption|].
  split; [rewrite request_params_lookup; reflexivity|].
  split.
  - unfold dict_has. rewrite count_param. reflexivity.
  - intros Hcfg.
    assert (Hn : dict_lookup "count" (request_params self query num_results) =
                 Some (PInt num_results)).
    { rewrite count_param. destruct Hcfg as [-> | ->]; reflexivity. }
    split; [exact Hn|].
    intros Hd. rewrite Hn, Hd. reflexivity.
Qed.

Lemma q_and_count_always_sent_witness :
  ∃ req,
    sent (snd (search_brave net_down zero_count_client "capital of France"
                 num_results_default w0)) = sent w0 ++ [req] ∧
    dict_lookup "q" (req_params req) = Some (PStr "capital of France") ∧
    dict_has "count" (req_params req) = true ∧
    (zero_count_client.(BraveSearch.num_results) = None ∨
     zero_count_client.(BraveSearch.num_results) = Some 0 →
     dict_lookup "count" (req_params req) = Some (PInt num_results_default) ∧
     (num_results_default = num_results_default →
      dict_lookup "count" (req_params req) = Some (PInt 10))).
Proof.
  apply (q_and_count_always_sent net_down zero_count_client "capital of France"
           num_results_default w0).
  reflexivity.
Defined.

(** ** Delegation and determinism *)

(** C7.  [run] is [search_brave]: same string, same effects, for every
    upstream, client, query, result count and world. *)
Theorem run_is_search_brave net self query num_results w :
  run net self query num_results w = search_brave net self query num_results w.
Proof. reflexivity. Qed.

(** The returned string is a function of the client, the arguments and the
    upstream outcome alone. *)
Lemma search_brave_depends_on_outcome net1 net2 self query num_results w1 w2 :
  digest (net1 (sent w1) (the_request self query num_results)) =
  digest (net2 (sent w2) (the_request self query num_results)) →
  fst (search_brave net1 self query num_results w1) =
  fst (search_brave net2 self query num_results w2).
Proof.
  intros Hsame. destruct (has_api_key self) eqn:Hkey.
  - rewrite !search_brave_with_key by assumption. cbv zeta. rewrite Hsame. clear Hsame.
    destruct (digest _) as [parsed|e]; [|destruct (is_Exception e)]; reflexivity.
  - rewrite !search_brave_without_key by assumption. reflexivity.
Qed.

(** C8.  Two calls in a row on one client with the same query and
    [num_results], the second starting in the world the first one left:
    if the upstream gives both the same status outcome and the same
    decoded body, both calls return the same string. *)
Theorem search_brave_deterministic net self query num_results w r1 r2 :
  let req := the_request self query num_results in
  let first := search_brave net self query num_results w in
  let second := search_brave net self query num_results (snd first) in
  net (sent w) req = Return r1 →
  net (sent (snd first)) req = Return r2 →
  raise_for_status r1 = raise_for_status r2 →
  json r1 = json r2 →
  fst first = fst second.
Proof.
  intros req first second H1 H2 Hstatus Hjson.
  apply search_brave_depends_on_outcome. fold req.
  unfold digest. rewrite H1, H2. simpl. rewrite Hstatus.
  destruct (raise_for_status r2); simpl; [|reflexivity].
  rewrite Hjson. reflexivity.
Qed.

Lemma search_brave_deterministic_witness :
  fst (search_brave (serve paris_body) demo_client "capital of France" 10 w0) =
  fst (search_brave (serve paris_body) demo_client "capital of France" 10
         (snd (search_brave (serve paris_body) demo_client "capital of France" 10 w0))).
Proof.
  apply (search_brave_deterministic (serve paris_body) demo_client
           "capital of France" 10 w0 (ok paris_body) (ok paris_body));
    reflexivity.
Defined.

(** ** Projection of the response *)

Lemma parse_result_dict ed : parse_result (PDict ed) = Return (PDict (projected ed)).
Proof.
  unfold parse_result, projected, snippets_truthy, get_or. simpl.
  destruct (truthy _); reflexivity.
Qed.

Lemma projected_keys ed :
  dict_keys (projected ed) =
    ["url"; "title"; "description"] ++
    (if snippets_truthy ed then ["extra_snippets"] else []).
Proof. unfold projected. destruct (snippets_truthy ed); reflexivity. Qed.

Lemma projected_lookup ed k :
  dict_has k (projected ed) = true →
  dict_lookup k (projected ed) = Some (get_or PNone k ed).
Proof.
  unfold dict_has, projected.
  destruct (snippets_truthy ed); simpl; by_key k; discriminate.
Qed.

Lemma projected_projection_of ed :
  projection_of snippets_truthy (PDict ed) (PDict (projected ed)).
Proof.
  exists ed, (projected ed). repeat split.
  - apply projected_keys.
  - apply projected_lookup.
Qed.

Lemma rmapM_Forall2_rel {A B} (f : A → pyresult B) (P : A → Prop) (R : A → B → Prop) xs :
  (∀ x, P x → ∃ y, f x = Return y ∧ R x y) → Forall P xs →
  ∃ ys, rmapM f xs = Return ys ∧ Forall2 R xs ys.
Proof.
  intros Hf. induction 1 as [|x xs Hx _ (ys & Hys & HR)]; simpl.
  - exists []. split; [reflexivity | constructor].
  - destruct (Hf x Hx) as (y & Hy & Hxy). exists (y :: ys).
    rewrite Hy. simpl. rewrite Hys. split; [reflexivity | constructor; assumption].
Qed.

(** The loop over [web.results] on a body of the expected shape. *)
Lemma parse_web_results_entries brave_results entries :
  web_entries brave_results = Some entries →
  parse_web_results brave_results = rmapM parse_result entries.
Proof.
  unfold web_entries, parse_web_results.
  destruct brave_results as [| | | | | |d]; try discriminate. simpl.
  destruct (dict_lookup "web" d) as [web|]; simpl.
  - destruct web as [| | | | | |wd]; try discriminate. simpl.
    destruct (dict_lookup "results" wd) as [results|]; simpl.
    + destruct results; try discriminate. intros [= ->]. reflexivity.
    + intros [= <-]. reflexivity.
  - intros [= <-]. reflexivity.
Qed.

Lemma parse_web_results_projected brave_results entries :
  web_entries brave_results = Some entries →
  Forall (fun e => is_dict e = true) entries →
  ∃ objs, parse_web_results brave_results = Return objs ∧
          Forall2 (fun e o => ∃ ed, e = PDict ed ∧ o = PDict (projected ed)) entries objs.
Proof.
  intros Hweb Hdicts. rewrite (parse_web_results_entries _ _ Hweb).
  apply rmapM_Forall2_rel with (P := fun e => is_dict e = true); [|assumption].
  intros e He. destruct e; try discriminate.
  eexists. split; [apply parse_result_dict | eauto].
Qed.

Lemma parse_summarizer_absent brave_results :
  no_summarizer brave_results = true → parse_summarizer brave_results = Return [].
Proof.
  destruct brave_results as [| | | | | |d]; try discriminate. simpl.
  unfold dict_has, parse_summarizer. simpl.
  destruct (dict_lookup "summarizer" d); [discriminate | reflexivity].
Qed.

(** C4 as stated fails on an entry whose [extra_snippets] is the empty
    list: the source provides a list, the output object has no such key. *)
Lemma empty_snippets_list_is_dropped : ¬ snippets_exactly_when_list_provided.
Proof.
  intros H.
  specialize (H bare_body [bare_entry]
                [PDict [("url", PStr "https://y.org"); ("title", PNone);
                        ("description", PStr "no title here")]]
                eq_refl).
  assert (Hall : Forall2 (projection_of snippets_list) [bare_entry]
            [PDict [("url", PStr "https://y.org"); ("title", PNone);
                    ("description", PStr "no title here")]]).
  { apply H; [repeat constructor | reflexivity | reflexivity]. }
  apply Forall2_cons_1 in Hall as [(ed & od & Hed & Hod & Hkeys & _) _].
  injection Hed as <-. injection Hod as <-. discriminate Hkeys.
Qed.

(** C4, amended.  When the upstream body holds N objects under
    [web.results] (a missing [web] or [results] key counting as none) and
    no summarizer, [search_brave] returns the serialisation of a list of N
    objects in the same order; each has the keys url, title, description
    with the values of its source entry, followed by extra_snippets
    exactly when the source value under that key is truthy (for a list:
    non-empty). *)
Theorem web_results_projected net self query num_results w brave_results entries :
  has_api_key self = true →
  answers_json net w (the_request self query num_results) brave_results →
  web_entries brave_results = Some entries →
  Forall (fun e => is_dict e = true) entries →
  no_summarizer brave_results = true →
  ∃ parsed,
    fst (search_brave net self query num_results w) =
      Return (json_dumps (PList parsed)) ∧
    length parsed = length entries ∧
    Forall2 (projection_of snippets_truthy) entries parsed.
Proof.
  intros Hkey Hans Hweb Hdicts Hnosum.
  destruct (parse_web_results_projected _ _ Hweb Hdicts) as (objs & Hobjs & Hrel).
  exists objs. split; [|split].
  - apply search_brave_answers with (brave_results := brave_results); try assumption.
    unfold parse_results. rewrite Hobjs. simpl.
    rewrite (parse_summarizer_absent _ Hnosum). simpl. rewrite app_nil_r. reflexivity.
  - symmetry. apply (Forall2_length _ _ _ Hrel).
  - eapply Forall2_impl; [exact Hrel|].
    intros e o (ed & -> & ->). apply projected_projection_of.
Qed.

Lemma web_results_projected_witness :
  ∃ parsed,
    fst (search_brave (serve bare_body) demo_client "capital of France" 10 w0) =
      Return (json_dumps (PList parsed)) ∧
    length parsed = length [bare_entry] ∧
    Forall2 (projection_of snippets_truthy) [bare_entry] parsed.
Proof.
  apply (web_results_projected (serve bare_body) demo_client "capital of France" 10
           w0 bare_body [bare_entry]).
  - reflexivity.
  - exists (ok bare_body). repeat split.
  - reflexivity.
  - repeat constructor.
  - reflexivity.
Defined.

(** The summarizer block on a body with a non-empty summarizer object. *)
Lemma parse_summarizer_present brave_results sd :
  source_summarizer brave_results = Some sd →
  ∃ out,
    parse_summarizer brave_results = Return [summarizer_element out] ∧
    dict_keys out =
      ["type"; "status"; "title"; "summary"; "followups"] ++
      (if dict_has "enrichments" sd then ["enrichments"] else []) ++
      (if dict_has "entities_infos" sd then ["entities_infos"] else []) ∧
    ∀ k, dict_has k out = true →
         dict_lookup k out = Some (get_or (summary_default k) k sd).
Proof.
  intros Hsrc.
  assert (Hshape : ∃ d, brave_results = PDict d ∧
                        dict_lookup "summarizer" d = Some (PDict sd) ∧
                        truthy (PDict sd) = true).
  { unfold source_summarizer in Hsrc.
    destruct brave_results as [| | | | | |d]; try discriminate.
    destruct (dict_lookup "summarizer" d) as [s|] eqn:Hs; [|discriminate].
    destruct s as [| | | | | |sd']; try discriminate.
    destruct sd' as [|kv sd']; [discriminate|]. injection Hsrc as <-.
    exists d. repeat split. exact Hs. }
  destruct Hshape as (d & -> & Hs & Htruthy).
  unfold parse_summarizer. cbn [py_get rbind]. rewrite Hs, Htruthy.
  cbn [py_in py_getitem rbind]. unfold dict_has, summarizer_element, get_or.
  destruct (dict_lookup "enrichments" sd) as [en|] eqn:Hen;
    destruct (dict_lookup "entities_infos" sd) as [ei|] eqn:Hei;
    simpl; eexists; (split; [reflexivity|]); (split; [reflexivity|]);
    intros k; unfold summary_default; simpl; by_key k;
    rewrite ?Hen, ?Hei; try reflexivity; try discriminate.
Qed.

(** C5 as stated fails on a summarizer without [title] and [followups]:
    the output carries both keys all the same, with [None] and [[]]. *)
Lemma absent_summary_fields_are_filled : ¬ only_source_fields_reflected.
Proof.
  intros H.
  destruct (H summarizer_body
              [("type", PStr "summarizer"); ("status", PStr "complete");
               ("summary", PList [PStr "Paris."]);
               ("enrichments", PDict [("raw", PStr "Paris.")]);
               ("key", PStr "k1")]
              [PDict [("url", PStr "https://x.com"); ("title", PStr "Paris");
                      ("description", PStr "Capital of France")]]
              eq_refl eq_refl) as (out & Hout & Honly & _).
  vm_compute in Hout. injection Hout as <-.
  specialize (Honly "title" eq_refl). vm_compute in Honly. discriminate.
Qed.

(** C5, amended.  When the upstream body has a non-empty summarizer
    object and the web results go through, the last element of the
    serialised list is [{"summarizer": out}], where [out] always has the
    keys type, status, title, summary, followups, then enrichments and
    entities_infos exactly when the source has those keys; every key holds
    the value of the source, or, when the source lacks it, [None] (type,
    status, title) or the empty list (summary, followups).  No other
    source field is carried over. *)
Theorem summarizer_appended net self query num_results w brave_results sd web :
  has_api_key self = true →
  answers_json net w (the_request self query num_results) brave_results →
  source_summarizer brave_results = Some sd →
  parse_web_results brave_results = Return web →
  ∃ out,
    fst (search_brave net self query num_results w) =
      Return (json_dumps (PList (web ++ [summarizer_element out]))) ∧
    last (web ++ [summarizer_element out]) = Some (summarizer_element out) ∧
    dict_keys out =
      ["type"; "status"; "title"; "summary"; "followups"] ++
      (if dict_has "enrichments" sd then ["enrichments"] else []) ++
      (if dict_has "entities_infos" sd then ["entities_infos"] else []) ∧
    (∀ k, dict_has k out = true →
          dict_lookup k out = Some (get_or (summary_default k) k sd)).
Proof.
  intros Hkey Hans Hsum Hweb.
  destruct (parse_summarizer_present _ _ Hsum) as (out & Hout & Hkeys & Hvals).
  exists out. split; [|split; [|split]]; try assumption.
  - apply search_brave_answers with (brave_results := brave_results); try assumption.
    unfold parse_results. rewrite Hweb. simpl. rewrite Hout. reflexivity.
  - apply last_snoc.
Qed.

Lemma summarizer_appended_witness :
  ∃ out,
    fst (search_brave (serve summarizer_body) demo_client "capital of France" 10 w0) =
      Return (json_dumps (PList (projected_paris ++ [summarizer_element out]))) ∧
    last (projected_paris ++ [summarizer_element out]) = Some (summarizer_element out) ∧
    dict_keys out =
      ["type"; "status"; "title"; "summary"; "followups"] ++
      (if dict_has "enrichments" summarizer_source then ["enrichments"] else []) ++
      (if dict_has "entities_infos" summarizer_source then ["entities_infos"] else []) ∧
    (∀ k, dict_has k out = true →
          dict_lookup k out = Some (get_or (summary_default k) k summarizer_source)).
Proof.
  apply (summarizer_appended (serve summarizer_body) demo_client "capital of France"
           10 w0 summarizer_body summarizer_source projected_paris).
  - reflexivity.
  - exists (ok summarizer_body). repeat split.
  - reflexivity.
  - reflexivity.
Defined.

(** C10.  When the entries under [web.results] are objects and the
    summarizer block goes through, [search_brave] succeeds whatever keys
    the entries lack: every output object has the keys url, title and
    description, and a key that its source entry lacks holds [None], which
    is serialised as [null]. *)
Theorem missing_fields_become_null net self query num_results w brave_results entries tail :
  has_api_key self = true →
  answers_json net w (the_request self query num_results) brave_results →
  web_entries brave_results = Some entries →
  Forall (fun e => is_dict e = true) entries →
  parse_summarizer brave_results = Return tail →
  ∃ objs,
    fst (search_brave net self query num_results w) =
      Return (json_dumps (PList (objs ++ tail))) ∧
    Forall2 (fun e o =>
               ∃ ed od, e = PDict ed ∧ o = PDict od ∧
                 ∀ k, k ∈ ["url"; "title"; "description"] →
                      dict_has k od = true ∧
                      (dict_has k ed = false → dict_lookup k od = Some PNone))
            entries objs ∧
    ∀ level, iterencode level PNone = "null".
Proof.
  intros Hkey Hans Hweb Hdicts Htail.
  destruct (parse_web_results_projected _ _ Hweb Hdicts) as (objs & Hobjs & Hrel).
  exists objs. split; [|split].
  - apply search_brave_answers with (brave_results := brave_results); try assumption.
    unfold parse_results. rewrite Hobjs. simpl. rewrite Htail. reflexivity.
  - eapply Forall2_impl; [exact Hrel|].
    intros e o (ed & -> & ->). exists ed, (projected ed).
    split; [reflexivity|]. split; [reflexivity|].
    intros k Hk.
    assert (Hhas : dict_has k (projected ed) = true).
    { unfold projected, dict_has.
      repeat (apply elem_of_cons in Hk as [-> | Hk]; [reflexivity|]).
      apply elem_of_nil in Hk. contradiction. }
    split; [exact Hhas|].
    intros Hmissing. rewrite (projected_lookup _ _ Hhas).
    unfold get_or. unfold dict_has in Hmissing.
    destruct (dict_lookup k ed); [discriminate | reflexivity].
  - reflexivity.
Qed.

Lemma missing_fields_become_null_witness :
  ∃ objs,
    fst (search_brave (serve bare_body) demo_client "capital of France" 10 w0) =
      Return (json_dumps (PList (objs ++ []))) ∧
    Forall2 (fun e o =>
               ∃ ed od, e = PDict ed ∧ o = PDict od ∧
                 ∀ k, k ∈ ["url"; "title"; "description"] →
                      dict_has k od = true ∧
                      (dict_has k ed = false → dict_lookup k od = Some PNone))
            [bare_entry] objs ∧
    ∀ level, iterencode level PNone = "null".
Proof.
  apply (missing_fields_become_null (serve bare_body) demo_client "capital of France"
           10 w0 bare_body [bare_entry] []).
  - reflexivity.
  - exists (ok bare_body). repeat split.
  - reflexivity.
  - repeat constructor.
  - reflexivity.
Defined.

(** ** The constructor *)

(** Whatever the arguments and the environment, the constructor returns a
    client, sends nothing, and writes one ERROR record exactly when the
    client ends up without a usable key. *)
Theorem init_returns_and_sends_nothing environ args w :
  ∃ self w',
    init environ args w = (Return self, w') ∧
    sent w' = sent w ∧
    logged w' =
      logged w ++ (if has_api_key self then [] else [(ERROR, MISSING_KEY_LOG)]) ∧
    self.(name) = "brave_search" ∧
    self.(functions) = ["search_brave"].
Proof.
  unfold init, mbind, has_api_key.
  destruct (truthy (of_opt_str (or_opt_str (arg_api_key args) (getenv environ ENV_KEY))))
    eqn:Hkey; unfold ENV_KEY in Hkey; rewrite Hkey; simpl.
  - eexists _, _. split; [reflexivity|]. simpl. rewrite Hkey, app_nil_r. auto.
  - eexists _, _. split; [reflexivity|]. simpl. rewrite Hkey. auto.
Qed.

(** A non-empty key passed to the constructor is the key of the client,
    whatever the environment holds; nothing is logged, and the session
    header carries that key. *)
Theorem init_explicit_key_wins environ args w k :
  arg_api_key args = Some k →
  k ≠ "" →
  ∃ self,
    init environ args w = (Return self, w) ∧
    self.(api_key) = Some k ∧
    headers self.(session) = [("X-Subscription-Token", PStr k)].
Proof.
  intros Harg Hk. unfold init, mbind, or_opt_str. rewrite Harg. simpl.
  destruct k as [|c k]; [contradiction|]. simpl.
  eexists. split; [destruct w; reflexivity|]. split; reflexivity.
Qed.

Lemma init_explicit_key_wins_witness :
  ∃ self,
    init env_with_key demo_args w0 = (Return self, w0) ∧
    self.(api_key) = Some "BSA-demo" ∧
    headers self.(session) = [("X-Subscription-Token", PStr "BSA-demo")].
Proof.
  apply (init_explicit_key_wins env_with_key demo_args w0 "BSA-demo").
  - reflexivity.
  - discriminate.
Defined.

Lemma init_environment_key environ args w k :
  truthy (of_opt_str (arg_api_key args)) = false →
  environ !! ENV_KEY = Some k →
  k ≠ "" →
  ∃ self,
    init environ args w = (Return self, w) ∧
    self.(api_key) = Some k ∧
    headers self.(session) = [("X-Subscription-Token", PStr k)].
Proof.
  intros Harg Henv Hk. unfold init, mbind, or_opt_str, getenv.
  unfold ENV_KEY in Henv. rewrite Harg, Henv. simpl.
  destruct k as [|c k]; [contradiction|]. simpl.
  eexists. split; [destruct w; reflexivity|]. split; reflexivity.
Qed.

(** With no key argument, or an empty one, the client takes whatever
    [BRAVE_SEARCH_API_KEY] holds in the environment; when that is a
    non-empty string nothing is logged and the header carries it. *)
Theorem init_falls_back_to_environment environ args w k :
  truthy (of_opt_str (arg_api_key args)) = false →
  environ !! ENV_KEY = Some k →
  k ≠ "" →
  ∃ self,
    init environ args w = (Return self, w) ∧
    self.(api_key) = Some k ∧
    headers self.(session) = [("X-Subscription-Token", PStr k)].
Proof.
  intros Harg Henv Hk. unfold init, mbind, or_opt_str, getenv.
  unfold ENV_KEY in Henv. rewrite Harg, Henv. simpl.
  destruct k as [|c k]; [contradiction|]. simpl.
  exists {|
    name := "brave_search";
    functions := ["search_brave"];
    api_key := Some (String c k);
    show_results := arg_show_results args;
    country := arg_country args;
    search_lang := arg_search_lang args;
    ui_lang := arg_ui_lang args;
    safesearch := arg_safesearch args;
    text_decorations := arg_text_decorations args;
    spellcheck := arg_spellcheck args;
    num_results := arg_num_results args;
    freshness := arg_freshness args;
    result_filter := arg_result_filter args;
    goggles_id := arg_goggles_id args;
    units := arg_units args;
    extra_snippets := arg_extra_snippets args;
    summary := arg_summary args;
    session := {| headers := [("X-Subscription-Token", PStr (String c k))] |}
  |}.
  split; [destruct w; reflexivity|]. split; reflexivity.
Qed.

Lemma init_falls_back_to_environment_witness :
  ∃ self,
    init env_with_key defaults w0 = (Return self, w0) ∧
    self.(api_key) = Some "BSA-env" ∧
    headers self.(session) = [("X-Subscription-Token", PStr "BSA-env")].
Proof.
  apply (init_falls_back_to_environment env_with_key defaults w0 "BSA-env").
  - reflexivity.
  - vm_compute. reflexivity.
  - discriminate.
Defined.

(** A client that comes out of the constructor with a key sends, on every
    call, one GET to the fixed endpoint with that key as the only header
    set by this code. *)
Theorem constructed_client_sends_its_key environ args w_init self w_made k
    net query num_results w :
  init environ args w_init = (Return self, w_made) →
  self.(api_key) = Some k →
  k ≠ "" →
  ∃ req,
    sent (snd (search_brave net self query num_results w)) = sent w ++ [req] ∧
    req_url req = "https://api.search.brave.com/res/v1/web/search" ∧
    req_headers req = [("X-Subscription-Token", PStr k)] ∧
    req_params req = request_params self query num_results.
Proof.
  intros Hinit Hkey Hk.
  assert (Hhas : has_api_key self = true).
  { unfold has_api_key. rewrite Hkey. destruct k; [contradiction | reflexivity]. }
  exists (the_request self query num_results).
  split; [apply search_brave_sends; assumption|].
  split; [reflexivity|]. split; [|reflexivity].
  unfold init, mbind in Hinit.
  destruct (negb _) in Hinit; simpl in Hinit;
    injection Hinit as <- _; simpl in *; rewrite Hkey; reflexivity.
Qed.

Lemma constructed_client_sends_its_key_witness :
  ∃ req,
    sent (snd (search_brave net_down demo_client "capital of France" 10 w0)) =
      sent w0 ++ [req] ∧
    req_url req = "https://api.search.brave.com/res/v1/web/search" ∧
    req_headers req = [("X-Subscription-Token", PStr "BSA-demo")] ∧
    req_params req = request_params demo_client "capital of France" 10.
Proof.
  apply (constructed_client_sends_its_key ∅ demo_args w0 demo_client w0 "BSA-demo"
           net_down "capital of France" 10 w0).
  - reflexivity.
  - reflexivity.
  - discriminate.
Defined.

(** ** Effects of a call *)

(** A call only appends to the world.  It sends one request when the
    client has a key and none otherwise, and with a key it logs the query
    first, then either the error (when an [Exception] was caught) or, only
    when [show_results] is set, the returned string.  When something that
    is not an [Exception] goes through, the query is all that is logged. *)
Theorem search_brave_effects net self query num_results w :
  let req := the_request self query num_results in
  let w' := snd (search_brave net self query num_results w) in
  sent w' = sent w ++ (if has_api_key self then [req] else []) ∧
  logged w' =
    logged w ++
    (if has_api_key self
     then call_log self query (digest (net (sent w) req))
     else []).
Proof.
  intros req w'. subst req w'. destruct (has_api_key self) eqn:Hkey.
  - rewrite search_brave_with_key by assumption. cbv zeta. unfold call_log.
    destruct (digest _) as [parsed|e]; simpl;
      [destruct (show_results self) | destruct (is_Exception e)]; simpl;
      rewrite <- ?app_assoc; simpl; rewrite ?app_nil_r; auto.
  - rewrite search_brave_without_key by assumption. simpl.
    rewrite !app_nil_r. auto.
Qed.

(** What the ERROR record says is what the caller gets: when the [try]
    block fails with an [Exception], the record is
    ["Failed to search Brave " + m] and the returned string is
    ["Error: " + m] for the same [m]. *)
Theorem failure_is_logged_and_returned net self query num_results w e :
  has_api_key self = true →
  digest (net (sent w) (the_request self query num_results)) = Raise e →
  is_Exception e = true →
  search_brave net self query num_results w =
    (Return ("Error: " +:+ exn_str e),
     World (sent w ++ [the_request self query num_results])
           (logged w ++ [(INFO, "Searching Brave for: " +:+ query);
                         (ERROR, "Failed to search Brave " +:+ exn_str e)])).
Proof.
  intros Hkey He Hexc. rewrite search_brave_with_key by assumption. cbv zeta.
  rewrite He, Hexc. simpl. rewrite <- app_assoc. reflexivity.
Qed.

Lemma failure_is_logged_and_returned_witness :
  search_brave net_down demo_client "capital of France" 10 w0 =
    (Return ("Error: " +:+ "Connection refused"),
     World (sent w0 ++ [the_request demo_client "capital of France" 10])
           (logged w0 ++ [(INFO, "Searching Brave for: " +:+ "capital of France");
                          (ERROR, "Failed to search Brave " +:+ "Connection refused")])).
Proof.
  apply (failure_is_logged_and_returned net_down demo_client "capital of France" 10 w0
           (Exn "ConnectionError" "Connection refused")); reflexivity.
Defined.

(** [show_results] changes the log and nothing else: the returned string
    and the request are the same with the flag on or off. *)
Theorem show_results_only_logs net self query num_results w b :
  fst (search_brave net (with_show_results b self) query num_results w) =
    fst (search_brave net self query num_results w) ∧
  sent (snd (search_brave net (with_show_results b self) query num_results w)) =
    sent (snd (search_brave net self query num_results w)).
Proof.
  assert (Hreq : the_request (with_show_results b self) query num_results =
                 the_request self query num_results) by reflexivity.
  assert (Hhas : has_api_key (with_show_results b self) = has_api_key self)
    by reflexivity.
  destruct (has_api_key self) eqn:Hkey.
  - rewrite !search_brave_with_key by first [exact Hhas | exact Hkey]. cbv zeta.
    rewrite Hreq. destruct (digest _) as [parsed|e]; simpl.
    + destruct b, (show_results self); auto.
    + destruct (is_Exception e); auto.
  - rewrite !search_brave_without_key by first [exact Hhas | exact Hkey]. auto.
Qed.

(** ** The request parameters, completely *)

(** The parameters are, in this order: the eight that are always there,
    then each of freshness, result_filter, goggles_id, units and
    extra_snippets that is configured, then summary. *)
Theorem request_params_keys self query num_results :
  dict_keys (request_params self query num_results) =
    ["q"; "country"; "search_lang"; "ui_lang"; "safesearch"; "text_decorations";
     "spellcheck"; "count"] ++
    key_if_set self Freshness ++ key_if_set self ResultFilter ++
    key_if_set self GogglesId ++ key_if_set self Units ++
    key_if_set self ExtraSnippets ++ ["summary"].
Proof.
  unfold request_params, clean_kwargs, search_kwargs, key_if_set, unset, field_value,
    py_or.
  destruct self as [? ? ? ? ? ? ? ? ? ? nr fr rf gg un es ? ?]. simpl.
  assert (Hcount : is_none (if truthy (of_opt_int nr) then of_opt_int nr
                            else PInt num_results) = false).
  { destruct nr as [c|]; simpl; [destruct (c =? 0)|]; reflexivity. }
  rewrite Hcount. simpl.
  destruct fr, rf, gg, un, es; reflexivity.
Qed.

(** An optional field that is configured is sent with the configured
    value, a flag set to [False] included: only [None] is dropped. *)
Theorem configured_optional_field_is_sent self query num_results f :
  f ≠ NumResults →
  unset self f = false →
  dict_lookup (param_key f) (request_params self query num_results) =
    Some (field_value self f).
Proof.
  intros Hf Hset. rewrite request_params_lookup. unfold unset in Hset.
  destruct f; try congruence; simpl in *; rewrite Hset; reflexivity.
Qed.

Lemma configured_optional_field_is_sent_witness :
  dict_lookup "extra_snippets" (request_params fresh_client "rocq" 10) =
    Some (PBool false).
Proof.
  apply (configured_optional_field_is_sent fresh_client "rocq" 10 ExtraSnippets).
  - discriminate.
  - reflexivity.
Defined.

(** The locale, safe-search and flag settings of the client go out as they
    are configured, the flags as booleans whether true or false. *)
Theorem fixed_params_sent self query num_results :
  let params := request_params self query num_results in
  dict_lookup "country" params = Some (PStr self.(country)) ∧
  dict_lookup "search_lang" params = Some (PStr self.(search_lang)) ∧
  dict_lookup "ui_lang" params = Some (PStr self.(ui_lang)) ∧
  dict_lookup "safesearch" params = Some (PStr self.(safesearch)) ∧
  dict_lookup "text_decorations" params = Some (PBool self.(text_decorations)) ∧
  dict_lookup "spellcheck" params = Some (PBool self.(spellcheck)) ∧
  dict_lookup "summary" params = Some (PBool self.(summary)).
Proof.
  cbv zeta. rewrite !request_params_lookup. repeat split; reflexivity.
Qed.

(** ** Bodies that are not of the expected shape *)

Lemma search_brave_parse_error net self query num_results w brave_results e :
  has_api_key self = true →
  answers_json net w (the_request self query num_results) brave_results →
  parse_results brave_results = Raise e →
  fst (search_brave net self query num_results w) = Return ("Error: " +:+ exn_str e).
Proof.
  intros Hkey Hans He. rewrite search_brave_with_key by assumption. cbv zeta.
  rewrite (digest_answers _ _ _ _ Hans), He, (parse_results_Exception _ _ He).
  reflexivity.
Qed.

(** A body that decodes to anything but an object (a list, a string, a
    number, [null]) gives the error string of the failed [.get]. *)
Theorem non_object_body_is_error net self query num_results w brave_results :
  has_api_key self = true →
  answers_json net w (the_request self query num_results) brave_results →
  is_dict brave_results = false →
  fst (search_brave net self query num_results w) =
    Return ("Error: '" +:+ type_name brave_results +:+
            "' object has no attribute 'get'").
Proof.
  intros Hkey Hans Hshape.
  rewrite (search_brave_parse_error _ _ _ _ _ _ (AttributeError brave_results "get")
             Hkey Hans); [reflexivity|].
  destruct brave_results; try discriminate; reflexivity.
Qed.

Lemma non_object_body_is_error_witness :
  fst (search_brave (serve (PList [])) demo_client "capital of France" 10 w0) =
    Return ("Error: '" +:+ type_name (PList []) +:+ "' object has no attribute 'get'").
Proof.
  apply (non_object_body_is_error (serve (PList [])) demo_client "capital of France"
           10 w0 (PList [])).
  - reflexivity.
  - exists (ok (PList [])). repeat split.
  - reflexivity.
Defined.

(** A [web] key that is present but does not hold an object ([null], for
    one) is not taken as missing: the call gives the error string of the
    failed [.get]. *)
Theorem non_object_web_is_error net self query num_results w d web :
  has_api_key self = true →
  answers_json net w (the_request self query num_results) (PDict d) →
  dict_lookup "web" d = Some web →
  is_dict web = false →
  fst (search_brave net self query num_results w) =
    Return ("Error: '" +:+ type_name web +:+ "' object has no attribute 'get'").
Proof.
  intros Hkey Hans Hweb Hshape.
  rewrite (search_brave_parse_error _ _ _ _ _ _ (AttributeError web "get") Hkey Hans);
    [reflexivity|].
  unfold parse_results, parse_web_results. cbn [py_get rbind]. rewrite Hweb.
  destruct web; try discriminate; reflexivity.
Qed.

Lemma non_object_web_is_error_witness :
  fst (search_brave (serve null_web_body) demo_client "capital of France" 10 w0) =
    Return ("Error: '" +:+ type_name PNone +:+ "' object has no attribute 'get'").
Proof.
  apply (non_object_web_is_error (serve null_web_body) demo_client "capital of France"
           10 w0 [("web", PNone)] PNone).
  - reflexivity.
  - exists (ok null_web_body). repeat split.
  - reflexivity.
  - reflexivity.
Defined.

(** A [results] key that holds [null], a boolean or a number cannot be
    looped over: the call gives the error string of the [TypeError]. *)
Theorem non_iterable_results_is_error net self query num_results w d wd results :
  has_api_key self = true →
  answers_json net w (the_request self query num_results) (PDict d) →
  dict_lookup "web" d = Some (PDict wd) →
  dict_lookup "results" wd = Some results →
  is_iterable results = false →
  fst (search_brave net self query num_results w) =
    Return ("Error: '" +:+ type_name results +:+ "' object is not iterable").
Proof.
  intros Hkey Hans Hweb Hres Hshape.
  rewrite (search_brave_parse_error _ _ _ _ _ _
             (TypeError ("'" +:+ type_name results +:+ "' object is not iterable"))
             Hkey Hans); [reflexivity|].
  unfold parse_results, parse_web_results. cbn [py_get rbind]. rewrite Hweb.
  cbn [py_get rbind]. rewrite Hres.
  destruct results; try discriminate; reflexivity.
Qed.

Lemma non_iterable_results_is_error_witness :
  fst (search_brave (serve null_results_body) demo_client "capital of France" 10 w0) =
    Return ("Error: '" +:+ type_name PNone +:+ "' object is not iterable").
Proof.
  apply (non_iterable_results_is_error (serve null_results_body) demo_client
           "capital of France" 10 w0
           [("web", PDict [("results", PNone)])] [("results", PNone)] PNone).
  - reflexivity.
  - exists (ok null_results_body). repeat split.
  - reflexivity.
  - reflexivity.
  - reflexivity.
Defined.

Lemma rmapM_first_failure {A B} (f : A → pyresult B) (P : A → Prop) pre x post e :
  (∀ a, P a → ∃ b, f a = Return b) → Forall P pre → f x = Raise e →
  rmapM f (pre ++ x :: post) = Raise e.
Proof.
  intros Hok Hpre Hx. induction Hpre as [|a pre Ha _ IH]; simpl.
  - rewrite Hx. reflexivity.
  - destruct (Hok a Ha) as (b & ->). simpl. rewrite IH. reflexivity.
Qed.

(** No partial results: when one entry of the [results] list is not an
    object, the hits before it are thrown away with it and the call gives
    the error string for that entry. *)
Theorem non_object_entry_discards_all net self query num_results w d wd pre bad post :
  has_api_key self = true →
  answers_json net w (the_request self query num_results) (PDict d) →
  dict_lookup "web" d = Some (PDict wd) →
  dict_lookup "results" wd = Some (PList (pre ++ bad :: post)) →
  Forall (fun e => is_dict e = true) pre →
  is_dict bad = false →
  fst (search_brave net self query num_results w) =
    Return ("Error: '" +:+ type_name bad +:+ "' object has no attribute 'get'").
Proof.
  intros Hkey Hans Hweb Hres Hpre Hbad.
  rewrite (search_brave_parse_error _ _ _ _ _ _ (AttributeError bad "get") Hkey Hans);
    [reflexivity|].
  unfold parse_results, parse_web_results. cbn [py_get rbind]. rewrite Hweb.
  cbn [py_get rbind]. rewrite Hres. cbn [py_iter rbind].
  rewrite (rmapM_first_failure parse_result (fun e => is_dict e = true)
             pre bad post (AttributeError bad "get")); try assumption.
  - reflexivity.
  - intros a Ha. destruct a; try discriminate. eexists. apply parse_result_dict.
  - destruct bad; try discriminate; reflexivity.
Qed.

Lemma non_object_entry_discards_all_witness :
  fst (search_brave (serve broken_body) demo_client "capital of France" 10 w0) =
    Return ("Error: '" +:+ type_name (PStr "oops") +:+
            "' object has no attribute 'get'").
Proof.
  apply (non_object_entry_discards_all (serve broken_body) demo_client
           "capital of France" 10 w0
           [("web", PDict [("results", PList [paris_entry; PStr "oops"; paris_entry])])]
           [("results", PList [paris_entry; PStr "oops"; paris_entry])]
           [paris_entry] (PStr "oops") [paris_entry]).
  - reflexivity.
  - exists (ok broken_body). repeat split.
  - reflexivity.
  - reflexivity.
  - repeat constructor.
  - reflexivity.
Defined.

(** ** The summarizer section at its edges *)

(** A summarizer that is there but falsy (an empty object, [null],
    [false], zero, an empty string or list) adds nothing: the call returns
    the web results alone. *)
Theorem falsy_summarizer_is_ignored net self query num_results w d summarizer web :
  has_api_key self = true →
  answers_json net w (the_request self query num_results) (PDict d) →
  dict_lookup "summarizer" d = Some summarizer →
  truthy summarizer = false →
  parse_web_results (PDict d) = Return web →
  fst (search_brave net self query num_results w) = Return (json_dumps (PList web)).
Proof.
  intros Hkey Hans Hsum Hfalsy Hweb.
  apply search_brave_answers with (brave_results := PDict d); try assumption.
  unfold parse_results. rewrite Hweb. cbn [rbind].
  unfold parse_summarizer. cbn [py_get rbind]. rewrite Hsum, Hfalsy.
  cbn [rbind]. rewrite app_nil_r. reflexivity.
Qed.

Lemma falsy_summarizer_is_ignored_witness :
  fst (search_brave (serve empty_summarizer_body) demo_client "capital of France" 10 w0) =
    Return (json_dumps (PList projected_paris)).
Proof.
  apply (falsy_summarizer_is_ignored (serve empty_summarizer_body) demo_client
           "capital of France" 10 w0
           [("web", PDict [("results", PList [paris_entry])]); ("summarizer", PDict [])]
           (PDict []) projected_paris).
  - reflexivity.
  - exists (ok empty_summarizer_body). repeat split.
  - reflexivity.
  - reflexivity.
  - reflexivity.
Defined.

(** A summarizer that is truthy but not an object (a text, a non-empty
    list, a number) turns the whole call into an error string, the web
    results that were already projected included. *)
Theorem non_object_summarizer_is_error net self query num_results w d summarizer web :
  has_api_key self = true →
  answers_json net w (the_request self query num_results) (PDict d) →
  dict_lookup "summarizer" d = Some summarizer →
  truthy summarizer = true →
  is_dict summarizer = false →
  parse_web_results (PDict d) = Return web →
  fst (search_brave net self query num_results w) =
    Return ("Error: '" +:+ type_name summarizer +:+ "' object has no attribute 'get'").
Proof.
  intros Hkey Hans Hsum Htruthy Hshape Hweb.
  rewrite (search_brave_parse_error _ _ _ _ _ _ (AttributeError summarizer "get")
             Hkey Hans); [reflexivity|].
  unfold parse_results. rewrite Hweb. cbn [rbind].
  unfold parse_summarizer. cbn [py_get rbind]. rewrite Hsum, Htruthy.
  destruct summarizer; try discriminate; reflexivity.
Qed.

Lemma non_object_summarizer_is_error_witness :
  fst (search_brave (serve text_summarizer_body) demo_client "capital of France" 10 w0) =
    Return ("Error: '" +:+ type_name (PStr "Paris is the capital.") +:+
            "' object has no attribute 'get'").
Proof.
  apply (non_object_summarizer_is_error (serve text_summarizer_body) demo_client
           "capital of France" 10 w0
           [("web", PDict [("results", PList [paris_entry])]);
            ("summarizer", PStr "Paris is the capital.")]
           (PStr "Paris is the capital.") projected_paris).
  - reflexivity.
  - exists (ok text_summarizer_body). repeat split.
  - reflexivity.
  - reflexivity.
  - reflexivity.
  - reflexivity.
Defined.

(** ** Size and shape of what is returned *)

Lemma parse_summarizer_length d tail :
  parse_summarizer (PDict d) = Return tail →
  length tail = match source_summarizer (PDict d) with Some _ => 1%nat | None => 0%nat end.
Proof.
  destruct (source_summarizer (PDict d)) as [sd|] eqn:Hsrc.
  - destruct (parse_summarizer_present _ _ Hsrc) as (out & -> & _).
    intros [= <-]. reflexivity.
  - unfold source_summarizer in Hsrc. unfold parse_summarizer. cbn [py_get rbind].
    destruct (dict_lookup "summarizer" d) as [s|]; [|intros [= <-]; reflexivity].
    destruct s as [| | | | | |sd]; try destruct sd; try discriminate Hsrc;
      destruct (truthy _) eqn:Ht; try discriminate Ht;
      try (intros [= <-]; reflexivity); discriminate.
Qed.

(** A call that succeeds on a body with N entries under [web.results]
    returns the serialisation of a list of N elements, or of N + 1 when
    the body has a non-empty summarizer object. *)
Theorem returned_list_length net self query num_results w brave_results entries parsed :
  has_api_key self = true →
  answers_json net w (the_request self query num_results) brave_results →
  web_entries brave_results = Some entries →
  parse_results brave_results = Return parsed →
  fst (search_brave net self query num_results w) = Return (json_dumps (PList parsed)) ∧
  length parsed =
    (length entries +
     match source_summarizer brave_results with Some _ => 1 | None => 0 end)%nat.
Proof.
  intros Hkey Hans Hentries Hparsed. split.
  - apply search_brave_answers with (brave_results := brave_results); assumption.
  - unfold parse_results in Hparsed.
    rewrite (parse_web_results_entries _ _ Hentries) in Hparsed.
    destruct (rmapM parse_result entries) as [web|] eqn:Hweb; [|discriminate].
    cbn [rbind] in Hparsed.
    destruct (parse_summarizer brave_results) as [tail|] eqn:Htail; [|discriminate].
    injection Hparsed as <-. rewrite length_app, (rmapM_length _ _ _ Hweb).
    f_equal. destruct brave_results; try discriminate Hentries.
    apply parse_summarizer_length. assumption.
Qed.

Lemma returned_list_length_witness :
  fst (search_brave (serve summarizer_body) demo_client "capital of France" 10 w0) =
    Return (json_dumps (PList (projected_paris ++
      [summarizer_element
         [("type", PStr "summarizer"); ("status", PStr "complete"); ("title", PNone);
          ("summary", PList [PStr "Paris."]); ("followups", PList []);
          ("enrichments", PDict [("raw", PStr "Paris.")])]]))) ∧
  length (projected_paris ++
      [summarizer_element
         [("type", PStr "summarizer"); ("status", PStr "complete"); ("title", PNone);
          ("summary", PList [PStr "Paris."]); ("followups", PList []);
          ("enrichments", PDict [("raw", PStr "Paris.")])]]) =
    (length [paris_entry] +
     match source_summarizer summarizer_body with Some _ => 1 | None => 0 end)%nat.
Proof.
  apply (returned_list_length (serve summarizer_body) demo_client "capital of France"
           10 w0 summarizer_body [paris_entry]).
  - reflexivity.
  - exists (ok summarizer_body). repeat split.
  - reflexivity.
  - reflexivity.
Defined.

(** With no hit and no summarizer the caller gets the two characters
    [[]], whether [web] or [results] is missing or the list is empty. *)
Theorem no_results_gives_empty_array net self query num_results w brave_results :
  has_api_key self = true →
  answers_json net w (the_request self query num_results) brave_results →
  web_entries brave_results = Some [] →
  no_summarizer brave_results = true →
  fst (search_brave net self query num_results w) = Return "[]".
Proof.
  intros Hkey Hans Hentries Hnosum.
  rewrite (search_brave_answers _ _ _ _ _ brave_results [] Hkey Hans); [reflexivity|].
  unfold parse_results. rewrite (parse_web_results_entries _ _ Hentries).
  cbn [rmapM rbind]. rewrite (parse_summarizer_absent _ Hnosum). reflexivity.
Qed.

Lemma no_results_gives_empty_array_witness :
  fst (search_brave (serve (PDict [])) demo_client "capital of France" 10 w0) =
    Return "[]".
Proof.
  apply (no_results_gives_empty_array (serve (PDict [])) demo_client
           "capital of France" 10 w0 (PDict [])).
  - reflexivity.
  - exists (ok (PDict [])). repeat split.
  - reflexivity.
  - reflexivity.
Defined.

Lemma append_assoc (a b c : string) : (a +:+ b) +:+ c = a +:+ b +:+ c.
Proof.
  induction a as [|x a IH]; [reflexivity|].
  change (String x ((a +:+ b) +:+ c) = String x (a +:+ b +:+ c)). rewrite IH. reflexivity.
Qed.

Lemma json_dumps_list_brackets lst : ∃ body, json_dumps (PList lst) = "[" +:+ body +:+ "]".
Proof.
  destruct lst as [|x lst].
  - exists "". reflexivity.
  - exists ((nl +:+ indent_by 1) +:+
            join ("," +:+ nl +:+ indent_by 1) (map (iterencode 1) (x :: lst)) +:+
            nl +:+ indent_by 0).
    change (json_dumps (PList (x :: lst)))
      with ("[" +:+ (nl +:+ indent_by 1) +:+
            join ("," +:+ nl +:+ indent_by 1) (map (iterencode 1) (x :: lst)) +:+
            nl +:+ indent_by 0 +:+ "]").
    rewrite !append_assoc. reflexivity.
Qed.

(** The caller can tell the three outcomes of a call that returns apart
    by how the string begins: the sentinel (no key), ["Error: "] followed
    by the message (an [Exception] was caught), or a bracketed JSON array
    (success).  The one other outcome, with a key only, is that something
    which is not an [Exception] came out of the upstream call and goes
    through to the caller. *)
Theorem returned_string_shape net self query num_results w :
  let result := fst (search_brave net self query num_results w) in
  (has_api_key self = false ∧
   result = Return "Please set the BRAVE_SEARCH_API_KEY") ∨
  (has_api_key self = true ∧ ∃ msg, result = Return ("Error: " +:+ msg)) ∨
  (has_api_key self = true ∧ ∃ body, result = Return ("[" +:+ body +:+ "]")) ∨
  (has_api_key self = true ∧
   ∃ e, result = Raise e ∧ is_Exception e = false ∧
        digest (net (sent w) (the_request self query num_results)) = Raise e).
Proof.
  cbv zeta. destruct (has_api_key self) eqn:Hkey.
  - rewrite search_brave_with_key by assumption. cbv zeta.
    destruct (digest _) as [parsed|e].
    + right. right. left. split; [reflexivity|].
      destruct (json_dumps_list_brackets parsed) as (body & ->). eauto.
    + destruct (is_Exception e) eqn:Hexc.
      * right. left. split; [reflexivity|]. eauto.
      * right. right. right. split; [reflexivity|]. eauto.
  - rewrite search_brave_without_key by assumption. left. auto.
Qed.

(** ** The HTTP status *)

(** A status from 400 to 599 ends the call before the body is looked at:
    whatever the body holds, the caller gets the status, the kind of
    error, the reason phrase and the URL in the error string. *)
Theorem error_status_discards_body net self query num_results w r :
  has_api_key self = true →
  net (sent w) (the_request self query num_results) = Return r →
  400 <= status_code r < 600 →
  fst (search_brave net self query num_results w) =
    Return ("Error: " +:+ int_repr (status_code r) +:+
            (if status_code r <? 500 then " Client Error: " else " Server Error: ") +:+
            reason r +:+ " for url: " +:+ resp_url r).
Proof.
  intros Hkey Hr Hstatus. rewrite search_brave_with_key by assumption. cbv zeta.
  unfold digest. rewrite Hr. cbn [rbind]. unfold raise_for_status.
  destruct (status_code r <? 500) eqn:Hlt.
  - assert (H4 : (400 <=? status_code r) = true) by (apply Z.leb_le; lia).
    rewrite H4. reflexivity.
  - assert (H5 : (500 <=? status_code r) = true)
      by (apply Z.leb_le; apply Z.ltb_ge in Hlt; lia).
    assert (H6 : (status_code r <? 600) = true) by (apply Z.ltb_lt; lia).
    rewrite H5, H6, andb_false_r. reflexivity.
Qed.

Lemma error_status_discards_body_witness :
  fst (search_brave (fun _ _ => Return not_found) demo_client "capital of France" 10 w0) =
    Return ("Error: " +:+ int_repr 404 +:+
            (if 404 <? 500 then " Client Error: " else " Server Error: ") +:+
            "Not Found" +:+ " for url: " +:+ BASE_URL).
Proof.
  apply (error_status_discards_body (fun _ _ => Return not_found) demo_client
           "capital of France" 10 w0 not_found).
  - reflexivity.
  - reflexivity.
  - simpl. lia.
Defined.

(** Only 400 to 599 counts as failure.  A response with any other status
    (a 204, a 304, a 1xx) is read like a 200: its body is decoded and
    projected. *)
Theorem other_status_is_read_as_success net self query num_results w r brave_results parsed :
  has_api_key self = true →
  net (sent w) (the_request self query num_results) = Return r →
  status_code r < 400 ∨ 600 <= status_code r →
  json r = Return brave_results →
  parse_results brave_results = Return parsed →
  fst (search_brave net self query num_results w) = Return (json_dumps (PList parsed)).
Proof.
  intros Hkey Hr Hstatus Hjson Hparse.
  apply search_brave_answers with (brave_results := brave_results); try assumption.
  exists r. split; [assumption|]. split; [|assumption].
  unfold raise_for_status.
  destruct Hstatus as [Hlow | Hhigh].
  - assert (H4 : (400 <=? status_code r) = false) by (apply Z.leb_gt; lia).
    assert (H5 : (500 <=? status_code r) = false) by (apply Z.leb_gt; lia).
    rewrite H4, H5. reflexivity.
  - assert (H4 : (status_code r <? 500) = false) by (apply Z.ltb_ge; lia).
    assert (H6 : (status_code r <? 600) = false) by (apply Z.ltb_ge; lia).
    rewrite H4, H6, !andb_false_r. reflexivity.
Qed.

Lemma other_status_is_read_as_success_witness :
  fst (search_brave
         (fun _ _ => Return (Response 304 "Not Modified" BASE_URL (Return paris_body)))
         demo_client "capital of France" 10 w0) =
    Return (json_dumps (PList projected_paris)).
Proof.
  apply (other_status_is_read_as_success
           (fun _ _ => Return (Response 304 "Not Modified" BASE_URL (Return paris_body)))
           demo_client "capital of France" 10 w0
           (Response 304 "Not Modified" BASE_URL (Return paris_body))
           paris_body projected_paris).
  - reflexivity.
  - reflexivity.
  - left. simpl. lia.
  - reflexivity.
  - reflexivity.
Defined.

(** ** The script *)

(** Run without a usable [BRAVE_SEARCH_API_KEY] in the environment, the
    script prints the sentinel: one ERROR record from the constructor,
    no request. *)
Theorem main_without_key net environ w :
  truthy (of_opt_str (environ !! ENV_KEY)) = false →
  main net environ w =
    (Return "Please set the BRAVE_SEARCH_API_KEY",
     World (sent w) (logged w ++ [(ERROR, MISSING_KEY_LOG)])).
Proof.
  intros Henv. unfold main, init, mbind, or_opt_str, getenv.
  unfold ENV_KEY in Henv. cbn [defaults arg_api_key of_opt_str truthy].
  rewrite Henv. cbn [negb]. unfold logger_error, mret. cbv beta iota.
  rewrite search_brave_without_key; [reflexivity|].
  unfold has_api_key. exact Henv.
Qed.

Lemma main_without_key_witness :
  main net_down ∅ w0 =
    (Return "Please set the BRAVE_SEARCH_API_KEY",
     World (sent w0) (logged w0 ++ [(ERROR, MISSING_KEY_LOG)])).
Proof.
  apply (main_without_key net_down ∅ w0). reflexivity.
Defined.

(** Run with a non-empty [BRAVE_SEARCH_API_KEY], the script sends one
    request: the fixed question, a count of 5, the defaults of the
    signature for the rest, and the key of the environment as header. *)
Theorem main_with_key net environ w k :
  environ !! ENV_KEY = Some k →
  k ≠ "" →
  sent (snd (main net environ w)) =
    sent w ++
    [Request "https://api.search.brave.com/res/v1/web/search"
       [("q", PStr "what is the weather in new york city");
        ("country", PStr "us"); ("search_lang", PStr "en");
        ("ui_lang", PStr "en-US"); ("safesearch", PStr "moderate");
        ("text_decorations", PBool true); ("spellcheck", PBool true);
        ("count", PInt 5); ("summary", PBool true)]
       [("X-Subscription-Token", PStr k)]].
Proof.
  intros Henv Hk.
  destruct (init_environment_key environ defaults w k eq_refl Henv Hk)
    as (self & Hinit & Hkey & Hhdr).
  unfold main, mbind. rewrite Hinit.
  assert (Hhas : has_api_key self = true).
  { unfold has_api_key. rewrite Hkey. destruct k; [contradiction | reflexivity]. }
  pose proof (search_brave_sends net self "what is the weather in new york city" 5 w
                Hhas) as Hsent.
  destruct (search_brave net self "what is the weather in new york city" 5 w)
    as [res w'] eqn:Hcall.
  cbn [snd] in Hsent |- *. rewrite Hsent. f_equal. f_equal.
  unfold the_request. rewrite Hhdr. f_equal.
  unfold init, mbind, or_opt_str, getenv in Hinit. unfold ENV_KEY in Henv.
  cbn [defaults arg_api_key of_opt_str truthy] in Hinit. rewrite Henv in Hinit.
  destruct k as [|c k]; [contradiction|]. cbn in Hinit.
  injection Hinit as <-. reflexivity.
Qed.

Lemma main_with_key_witness :
  sent (snd (main net_down env_with_key w0)) =
    sent w0 ++
    [Request "https://api.search.brave.com/res/v1/web/search"
       [("q", PStr "what is the weather in new york city");
        ("country", PStr "us"); ("search_lang", PStr "en");
        ("ui_lang", PStr "en-US"); ("safesearch", PStr "moderate");
        ("text_decorations", PBool true); ("spellcheck", PBool true);
        ("count", PInt 5); ("summary", PBool true)]
       [("X-Subscription-Token", PStr "BSA-env")]].
Proof.
  apply (main_with_key net_down env_with_key w0 "BSA-env").
  - vm_compute. reflexivity.
  - discriminate.
Defined.

(** ** Reuse of a client *)

(** A client serves call after call: two calls in a row send two
    requests, in the order of the calls, each built from its own
    arguments and the unchanged configuration. *)
Theorem two_calls_two_requests net self query1 n1 query2 n2 w :
  has_api_key self = true →
  let w1 := snd (search_brave net self query1 n1 w) in
  let w2 := snd (search_brave net self query2 n2 w1) in
  sent w2 = sent w ++ [the_request self query1 n1; the_request self query2 n2].
Proof.
  intros Hkey w1 w2. subst w1 w2.
  rewrite !search_brave_sends by assumption.
  rewrite <- app_assoc. reflexivity.
Qed.

Lemma two_calls_two_requests_witness :
  sent (snd (search_brave net_down demo_client "rocq" 3
               (snd (search_brave net_down demo_client "capital of France" 10 w0)))) =
    sent w0 ++ [the_request demo_client "capital of France" 10;
                the_request demo_client "rocq" 3].
Proof.
  apply (two_calls_two_requests net_down demo_client "capital of France" 10 "rocq" 3 w0).
  reflexivity.
Defined.
